(** * A shallow embedding of fitgrid's [Epochs] container ([fitgrid/epochs.py])
      and of [load_grid] ([fitgrid/io.py]).

    The pandas tables are modelled at the level the code inspects them:
    index level names, column names and rows carrying the trial id
    ([EPOCH_ID]), the time key ([TIME]) and the remaining cells.  Python
    exceptions are values of [Exc]; a fallible operation returns a
    [Result]. *)

From Stdlib Require Import String List Bool Arith Lia Permutation Sorted.
From Stdlib Require Import Reals Lra.
Import ListNotations.

Set Warnings "-register-all".
Set Implicit Arguments.
Open Scope string_scope.

(* ------------------------------------------------------------------ *)
(** ** Python values, exceptions and the result monad *)

(** Arguments carried by an exception object. *)
Inductive Arg : Type :=
| AStr (s : string)
| ANat (n : nat)
| AStrs (l : list string)
| ANats (l : list nat).

(** A raised Python exception: its class name and its [args]. *)
Record Exc : Type := mkExc { exc_type : string; exc_args : list Arg }.

Definition FitGridError (msg : string) : Exc :=
  mkExc "FitGridError" [AStr msg].

Inductive Result (A : Type) : Type :=
| Ok (a : A)
| Raise (e : Exc).
Arguments Ok {A} a.
Arguments Raise {A} e.

Definition bind {A B} (m : Result A) (k : A -> Result B) : Result B :=
  match m with
  | Ok a => k a
  | Raise e => Raise e
  end.

Notation "x <- m ;; k" := (bind m (fun x => k))
  (at level 61, m at next level, right associativity).

(** The Python values a caller may pass for a channel list. *)
Inductive PyVal : Type :=
| PyStr (s : string)
| PyInt (n : nat)
| PyNone
| PyList (l : list PyVal).

(** [isinstance(v, list) and all(isinstance(item, str) for item in v)] *)
Fixpoint all_str (l : list PyVal) : option (list string) :=
  match l with
  | [] => Some []
  | PyStr s :: l' =>
      match all_str l' with Some ss => Some (s :: ss) | None => None end
  | _ :: _ => None
  end.

Definition as_str_list (v : PyVal) : option (list string) :=
  match v with
  | PyList l => all_str l
  | _ => None
  end.

Definition mem (s : string) (l : list string) : bool :=
  existsb (String.eqb s) l.

(** [set(items) - set(cols)], listed once each. *)
Definition missing_items (items cols : list string) : list string :=
  nodup string_dec (filter (fun c => negb (mem c cols)) items).

(** [l1.equals(l2)] on two integer indexes: same values, same order. *)
Definition index_equals (l1 l2 : list nat) : bool :=
  if list_eq_dec Nat.eq_dec l1 l2 then true else false.

(** [Index.is_unique] *)
Fixpoint is_unique (l : list nat) : bool :=
  match l with
  | [] => true
  | x :: l' => negb (existsb (Nat.eqb x) l') && is_unique l'
  end.

(** Sorted insertion without repetition: the group keys of [groupby],
    which sorts them. *)
Fixpoint ins_uniq (x : nat) (l : list nat) : list nat :=
  match l with
  | [] => [x]
  | y :: l' =>
      if Nat.ltb x y then x :: l
      else if Nat.eqb x y then l
      else y :: ins_uniq x l'
  end.

(* ------------------------------------------------------------------ *)
(** ** The Epochs container *)

Section EpochsModel.

(** Cell values of the non-key columns. *)
Variable V : Type.
(** The package constants [EPOCH_ID], [TIME] and [CHANNELS]. *)
Variables EPOCH_ID TIME : string.
Variable CHANNELS : list string.

(** One row of the long-form table: its trial id, its time key and the
    cells of the other columns. *)
Record Row : Type := mkRow { r_epoch : nat; r_time : nat; r_data : string -> V }.

Record Table : Type := mkTable {
  t_index : list string;    (* index level names *)
  t_columns : list string;  (* column names *)
  t_rows : list Row
}.

Record Epochs : Type := mkEpochs {
  e_channels : list string;
  e_table : Table;
  e_epoch_index : list nat
}.

(** The trial ids of a group, i.e. its [EPOCH_ID] index. *)
Definition ids (g : list Row) : list nat := map r_epoch g.

(** Sorted distinct time keys. *)
Definition times (rows : list Row) : list nat :=
  fold_right (fun r acc => ins_uniq (r_time r) acc) [] rows.

Definition time_group (rows : list Row) (t : nat) : list Row :=
  filter (fun r => Nat.eqb (r_time r) t) rows.

(** [table.groupby(TIME)] iterated: (key, group) pairs in key order, each
    group keeping the table's row order. *)
Definition groupby_time (rows : list Row) : list (nat * list Row) :=
  map (fun t => (t, time_group rows t)) (times rows).

(** [df.reset_index()]: index levels become the leading columns; pandas
    refuses a level whose name is already a column. *)
Definition reset_index (tbl : Table) : Result Table :=
  match filter (fun n => mem n (t_columns tbl)) (t_index tbl) with
  | n :: _ =>
      Raise (mkExc "ValueError" [AStr ("cannot insert " ++ n ++ ", already exists")])
  | [] => Ok (mkTable [] (app (t_index tbl) (t_columns tbl)) (t_rows tbl))
  end.

(** [df.set_index(EPOCH_ID)] *)
Definition set_index_epoch (tbl : Table) : Result Table :=
  if mem EPOCH_ID (t_columns tbl)
  then Ok (mkTable [EPOCH_ID] (remove string_dec EPOCH_ID (t_columns tbl)) (t_rows tbl))
  else Raise (mkExc "KeyError" [AStr EPOCH_ID]).

(** The loop of [for item in (EPOCH_ID, TIME)]: the first key that is not
    an index level. *)
Fixpoint first_missing_key (keys names : list string) : option string :=
  match keys with
  | [] => None
  | k :: ks => if mem k names then first_missing_key ks names else Some k
  end.

(** Lines 34-63 of [Epochs.__init__]: the channel list and the index
    levels are checked, then the own copy is reindexed by [EPOCH_ID]. *)
Definition prechecks (epochs_table : Table) (channels : PyVal)
  : Result (list string * Table) :=
  let channels :=
    match channels with
    | PyStr s => if String.eqb s "default" then PyList (map PyStr CHANNELS) else channels
    | _ => channels
    end in
  match as_str_list channels with
  | None => Raise (FitGridError "channels should be a list of strings.")
  | Some chans =>
      match missing_items chans (t_columns epochs_table) with
      | (_ :: _) as missing =>
          Raise (mkExc "FitGridError"
                   [AStr ("channels should all be present in the epochs table, "
                          ++ "the following are missing: "); AStrs missing])
      | [] =>
          match first_missing_key [EPOCH_ID; TIME] (t_index epochs_table) with
          | Some item =>
              Raise (FitGridError (item ++ " must be a column in the epochs table index."))
          | None =>
              t1 <- reset_index epochs_table ;;
              table <- set_index_epoch t1 ;;
              Ok (chans, table)
          end
      end
  end.

(** Lines 68-80: consecutive snapshots must have equal [EPOCH_ID]
    indexes; the last snapshot is returned ([None] when there is none). *)
Fixpoint check_snapshots (prev : option (list Row)) (gs : list (nat * list Row))
  : Result (option (list Row)) :=
  match gs with
  | [] => Ok prev
  | (idx, cur) :: gs' =>
      match prev with
      | Some p =>
          if index_equals (ids p) (ids cur) then check_snapshots (Some cur) gs'
          else Raise (mkExc "FitGridError"
                        [AStr "Snapshot differs from previous snapshot in index";
                         ANat idx; ANats (ids cur); ANats (ids p)])
      | None => check_snapshots (Some cur) gs'
      end
  end.

Definition first_group_ids (rows : list Row) : list nat :=
  match groupby_time rows with
  | (_, g) :: _ => ids g
  | [] => []
  end.

(** Lines 65-92, after [prechecks]. *)
Definition snapshot_stage (chans : list string) (table : Table) : Result Epochs :=
  let snapshots := groupby_time (t_rows table) in
  last <- check_snapshots None snapshots ;;
  match last with
  | None =>
      Raise (mkExc "AttributeError" [AStr "'NoneType' object has no attribute 'index'"])
  | Some prev_group =>
      if is_unique (ids prev_group)
      then Ok (mkEpochs chans table (first_group_ids (t_rows table)))
      else Raise (mkExc "FitGridError"
                    [AStr "Duplicate values in index not allowed"; ANats (ids prev_group)])
  end.

(** [Epochs(epochs_table, channels)] *)
Definition construct (epochs_table : Table) (channels : PyVal) : Result Epochs :=
  p <- prechecks epochs_table channels ;;
  snapshot_stage (fst p) (snd p).

End EpochsModel.


(** The claim's reading of a consistent table: each time key's trial ids
    have the same members as every other's, and no repeats. *)
Definition ids_at {V} (rows : list (Row V)) (t : nat) : list nat :=
  ids (time_group rows t).

Definition same_members {V} (rows : list (Row V)) : Prop :=
  rows <> [] /\
  (forall r1 r2, In r1 rows -> In r2 rows ->
     forall e, In e (ids_at rows (r_time r1)) <-> In e (ids_at rows (r_time r2))) /\
  (forall r, In r rows -> NoDup (ids_at rows (r_time r))).

(** What the snapshot check enforces: each time key carries the very same
    sequence of trial ids (same values in the same order), without
    repeats. *)
Definition same_trial_sequence {V} (rows : list (Row V)) : Prop :=
  rows <> [] /\
  (forall r1 r2, In r1 rows -> In r2 rows ->
     ids_at rows (r_time r1) = ids_at rows (r_time r2)) /\
  (forall r, In r rows -> NoDup (ids_at rows (r_time r))).

Definition ex_epoch : string := "epoch_id".
Definition ex_time : string := "time".

Definition ex_row (e t : nat) : Row nat := mkRow e t (fun _ => 0).

(** Two trials, two time points, trial order swapped at time 1. *)
Definition ex_swapped : Table nat :=
  mkTable [ex_epoch; ex_time] ["A"; "B"] [ex_row 1 0; ex_row 2 0; ex_row 2 1; ex_row 1 1].

(* ------------------------------------------------------------------ *)
(** ** [run_model], [lm] and [lmer] *)

(** How [run_model] iterates: [map] in the caller's process, or
    [Pool(n_cores).imap].  For a pool, [sched] is the order in which the
    tasks' result slots are filled (any order the scheduler produces), and
    the two pickling outcomes say what crosses the process boundary:
    [dump_task i] is the exception raised when the pool's task handler
    pickles task [i] (the partial [process_key_and_group] with the bound
    container, the callable and the channel list, and the [i]-th
    [(key, group)] pair), if any; [dump_reply i] is, when pickling the
    worker's reply to task [i] (its series or the exception it raised)
    fails, the [repr] of that pickling error and of the reply. *)
Inductive Mode : Type :=
| Serial
| Parallel (n_cores : nat) (sched : list nat)
           (dump_task : nat -> option Exc) (dump_reply : nat -> option (string * string)).

(** [list(it)] over an iterator whose items may raise: the first raising
    item aborts. *)
Fixpoint collect {X} (l : list (Result X)) : Result (list X) :=
  match l with
  | [] => Ok []
  | r :: l' => x <- r ;; xs <- collect l' ;; Ok (x :: xs)
  end.

(** [l[n] = x] where [n] is in range (the pool only writes there). *)
Fixpoint set_nth {X} (n : nat) (x : X) (l : list X) : list X :=
  match l, n with
  | [], _ => []
  | _ :: l', 0 => x :: l'
  | y :: l', S n' => y :: set_nth n' x l'
  end.

(** [pool.imap(task, xs)]: the pool keeps one result slot per task and
    fills task [i]'s slot when a worker completes it; [sched] lists the
    completions in time order.  The consumer then reads the slots in task
    order. *)
Definition pool_imap {X Y} (task : X -> Y) (xs : list X) (sched : list nat)
  : list (option Y) :=
  fold_left (fun slots i =>
               match nth_error xs i with
               | Some x => set_nth i (Some (task x)) slots
               | None => slots
               end)
            sched (repeat None (length xs)).

(** [multiprocessing.pool.MaybeEncodingError(exc, value)]: its [args] are
    [repr(exc)] and [repr(value)]. *)
Definition MaybeEncodingError (exc_repr value_repr : string) : Exc :=
  mkExc "MaybeEncodingError" [AStr exc_repr; AStr value_repr].

(** What fills the result slot of task [i] in [Pool.imap]: when the task
    handler cannot pickle the task it sets the pickling exception as the
    task's result ([_handle_tasks]); otherwise a worker runs the task and
    sends back its result or its exception, and a reply that cannot be
    pickled is replaced by a [MaybeEncodingError] ([worker]).  A reply that
    pickles is unpickled in the caller to an equal value; the remote
    traceback the pool attaches as [__cause__] is not modelled. *)
Definition pool_worker {X Y} (task : X -> Result Y) (dump_task : nat -> option Exc)
  (dump_reply : nat -> option (string * string)) (i_x : nat * X) : Result Y :=
  let (i, x) := i_x in
  match dump_task i with
  | Some e => Raise e
  | None =>
      let reply := task x in
      match dump_reply i with
      | Some (exc_repr, value_repr) => Raise (MaybeEncodingError exc_repr value_repr)
      | None => reply
      end
  end.

(** [list(pool.imap(...))]: results are yielded in task order; a raising
    task re-raises its exception in the caller.  A slot no completion ever
    fills would block the caller for ever; that case (a [sched] that is not
    a permutation of the tasks) is reported as [PoolBlocked]. *)
Fixpoint collect_imap {Y} (l : list (option (Result Y))) : Result (list Y) :=
  match l with
  | [] => Ok []
  | None :: _ => Raise (mkExc "PoolBlocked" [])
  | Some r :: l' => y <- r ;; ys <- collect_imap l' ;; Ok (y :: ys)
  end.

Section RunModel.

Variable V : Type.
Variable TIME : string.
(** Fitted model objects returned by the fitting callables. *)
Variable A : Type.

(** [Epochs._validate_LHS]: returns the checked list. *)
Definition validate_LHS (table : Table V) (LHS : PyVal) : Result (list string) :=
  match as_str_list LHS with
  | None => Raise (FitGridError "LHS must be a list of strings.")
  | Some l =>
      match missing_items l (t_columns table) with
      | [] => Ok l
      | missing =>
          Raise (mkExc "FitGridError"
                   [AStr ("Items in LHS should all be present in the epochs table, "
                          ++ "the following are missing: "); AStrs missing])
      end
  end.

(** [Epochs._validate_RHS] *)
Definition validate_RHS (RHS : PyVal) : Result string :=
  match RHS with
  | PyNone => Raise (FitGridError "Specify the RHS argument.")
  | PyStr s => Ok s
  | _ => Raise (FitGridError "RHS has to be a string.")
  end.

(** [d[k] = v] on a Python dict (insertion ordered). *)
Fixpoint dict_set (k : string) (v : A) (d : list (string * A)) : list (string * A) :=
  match d with
  | [] => [(k, v)]
  | (k', v') :: d' => if String.eqb k k' then (k, v) :: d' else (k', v') :: dict_set k v d'
  end.

Fixpoint dict_get (k : string) (d : list (string * A)) : option A :=
  match d with
  | [] => None
  | (k', v) :: d' => if String.eqb k k' then Some v else dict_get k d'
  end.

(** [{channel: function(group, channel) for channel in channels}] *)
Fixpoint dict_comp (function : list (Row V) -> string -> Result A)
  (group : list (Row V)) (channels : list string) (acc : list (string * A))
  : Result (list (string * A)) :=
  match channels with
  | [] => Ok acc
  | c :: cs => v <- function group c ;; dict_comp function group cs (dict_set c v acc)
  end.

(** A [pd.Series] named by the time key. *)
Record Series : Type := mkSeries { s_name : nat; s_items : list (string * A) }.

(** [Epochs.process_key_and_group] *)
Definition process_key_and_group (key_and_group : nat * list (Row V))
  (function : list (Row V) -> string -> Result A) (channels : list string)
  : Result Series :=
  let (key, group) := key_and_group in
  results <- dict_comp function group channels [] ;;
  Ok (mkSeries key results).

(** A result grid: time keys (rows, index named [TIME]), channels
    (columns), cells ([None] is a NaN left by the outer join), and the
    trial-id index passed to [FitGrid]. *)
Record Grid : Type := mkGrid {
  g_index : list nat;
  g_index_name : string;
  g_columns : list string;
  g_cells : list (list (option A));
  g_epoch_index : list nat
}.

(** [pd.concat(results, axis=1).T]: one row per series; the columns are
    the union of the series' labels.  All series of a run are built from
    the same channel list, so the union is the first series' labels in
    their order, and every row is aligned on it. *)
Definition concat_T (results : list Series)
  : Result (list nat * list string * list (list (option A))) :=
  match results with
  | [] => Raise (mkExc "ValueError" [AStr "No objects to concatenate"])
  | s0 :: _ =>
      let cols := map fst (s_items s0) in
      Ok (map s_name results, cols,
          map (fun s => map (fun c => dict_get c (s_items s)) cols) results)
  end.

(** [Epochs.run_model]; [channels = None] is [None]. *)
Definition run_model (ep : Epochs V) (function : list (Row V) -> string -> Result A)
  (channels : option PyVal) (mode : Mode) : Result Grid :=
  let channels :=
    match channels with
    | None => PyList (map PyStr (e_channels ep))
    | Some c => c
    end in
  chans <- validate_LHS (e_table ep) channels ;;
  let gb := groupby_time (t_rows (e_table ep)) in
  let task := fun kg => process_key_and_group kg function chans in
  results <-
    match mode with
    | Serial => collect (map task gb)
    | Parallel n_cores sched dump_task dump_reply =>
        if Nat.eqb n_cores 0
        then Raise (mkExc "ValueError" [AStr "Number of processes must be at least 1"])
        else collect_imap (pool_imap (pool_worker task dump_task dump_reply)
                                     (combine (seq 0 (length gb)) gb) sched)
    end ;;
  g <- concat_T results ;;
  let '(index, cols, cells) := g in
  Ok (mkGrid index TIME cols cells (e_epoch_index ep)).

(** The statsmodels and pymer4 fitting routines, external to fitgrid:
    [ols(channel + ' ~ ' + RHS, data).fit()] and
    [Lmer(channel + ' ~ ' + RHS, data=data).fit(...)]. *)
Variable ols_fit : list (Row V) -> string -> string -> Result A.
Variable lmer_fit : list (Row V) -> string -> string -> Result A.

(** [Epochs.lm] *)
Definition lm (ep : Epochs V) (LHS : option PyVal) (RHS : PyVal) (mode : Mode)
  : Result Grid :=
  let LHS := match LHS with None => PyList (map PyStr (e_channels ep)) | Some l => l end in
  _ <- validate_LHS (e_table ep) LHS ;;
  rhs <- validate_RHS RHS ;;
  run_model ep (fun data channel => ols_fit data channel rhs) (Some LHS) mode.

(** [Epochs.lmer]: note the call to [run_model] without [LHS]. *)
Definition lmer (ep : Epochs V) (LHS : option PyVal) (RHS : PyVal) (mode : Mode)
  : Result Grid :=
  let LHS := match LHS with None => PyList (map PyStr (e_channels ep)) | Some l => l end in
  match RHS with
  | PyStr rhs =>
      _ <- validate_LHS (e_table ep) LHS ;;
      run_model ep (fun data channel => lmer_fit data channel rhs) None mode
  | _ => Raise (mkExc "ValueError" [AStr "Please enter a valid lmer RHS as a string."])
  end.

End RunModel.

(* ------------------------------------------------------------------ *)
(** ** Object identity: the caller's table and the container's copy *)

Section Store.

Variable V : Type.
Variables EPOCH_ID TIME : string.
Variable CHANNELS : list string.

(** The Python heap, restricted to DataFrame objects: [h_next] is the
    next unused address. *)
Record Heap : Type := mkHeap { h_next : nat; h_tables : nat -> option (Table V) }.

Definition heap_wf (h : Heap) : Prop :=
  forall l, h_next h <= l -> h_tables h l = None.

(** A new object. *)
Definition alloc (h : Heap) (t : Table V) : Heap * nat :=
  (mkHeap (S (h_next h))
          (fun l => if Nat.eqb l (h_next h) then Some t else h_tables h l),
   h_next h).

(** An in-place mutation of the object at [l] by whoever holds it. *)
Definition heap_write (h : Heap) (l : nat) (t : Table V) : Heap :=
  mkHeap (h_next h) (fun l' => if Nat.eqb l' l then Some t else h_tables h l').

(** An [Epochs] object: [self.channels], the address of [self.table] and
    [self._epoch_index]. *)
Record EpochsObj : Type := mkObj {
  o_channels : list string;
  o_table : nat;
  o_epoch_index : list nat
}.

(** [Epochs(epochs_table, channels)] where [epochs_table] is the object
    at [loc]: the checks read the caller's table; the stored table is the
    object [epochs_table.copy().reset_index().set_index(EPOCH_ID)], a new
    one. *)
Definition construct_obj (h : Heap) (loc : nat) (channels : PyVal)
  : Result (Heap * EpochsObj) :=
  match h_tables h loc with
  | None => Raise (mkExc "AttributeError" [AStr "object has no attribute 'columns'"])
  | Some epochs_table =>
      ep <- construct EPOCH_ID TIME CHANNELS epochs_table channels ;;
      let (h', l') := alloc h (e_table ep) in
      Ok (h', mkObj (e_channels ep) l' (e_epoch_index ep))
  end.

(** What a method sees through [self]. *)
Definition epochs_view (h : Heap) (o : EpochsObj) : option (Epochs V) :=
  match h_tables h (o_table o) with
  | Some t => Some (mkEpochs (o_channels o) t (o_epoch_index o))
  | None => None
  end.

(** [obj.run_model(...)] on the heap. *)
Definition run_model_obj {A} (h : Heap) (o : EpochsObj)
  (function : list (Row V) -> string -> Result A) (channels : option PyVal) (mode : Mode)
  : Result (Grid A) :=
  match epochs_view h o with
  | Some ep => run_model TIME ep function channels mode
  | None => Raise (mkExc "AttributeError" [AStr "table"])
  end.

End Store.

(* ------------------------------------------------------------------ *)
(** ** [load_grid] *)

(** A Python object, seen through its class and that class's ancestors
    ([type(obj).__mro__] by name). *)
Record PyObj : Type := mkPyObj { py_mro : list string }.

Definition isinstance (o : PyObj) (cls : string) : bool := mem cls (py_mro o).

Inductive GridKind : Type := KFitGrid | KLMFitGrid | KLMERFitGrid.

Record LoadedGrid : Type := mkLoaded {
  lg_kind : GridKind;
  lg_grid : list (list PyObj);   (* rows: time keys; columns: channels *)
  lg_epoch_index : list nat;
  lg_time : string
}.

(** [load_grid(filename)]: [file] is the unpickled [(_grid, epoch_index,
    time)] triple ([None] when unpickling fails). *)
Definition load_grid (file : option (list (list PyObj) * list nat * string))
  : Result LoadedGrid :=
  match file with
  | None => Raise (mkExc "UnpicklingError" [])
  | Some (grid, epoch_index, time) =>
      match grid with
      | (tester :: _) :: _ =>
          if isinstance tester "RegressionResults"
             || isinstance tester "RegressionResultsWrapper"
          then Ok (mkLoaded KLMFitGrid grid epoch_index time)
          else if isinstance tester "Lmer"
          then Ok (mkLoaded KLMERFitGrid grid epoch_index time)
          else Ok (mkLoaded KFitGrid grid epoch_index time)
      | _ => Raise (mkExc "IndexError" [AStr "single positional indexer is out-of-bounds"])
      end
  end.

(* ------------------------------------------------------------------ *)
(** ** [Epochs.distances], over the reals *)

(** numpy float results: finite, [nan], [inf], [-inf]. *)
Inductive FVal : Type := Fin (x : R) | NaN | PosInf | NegInf.

(** numpy's [x / y]: IEEE division, [0/0] is [nan]. *)
Definition np_div (x y : R) : FVal :=
  if Req_EM_T y 0 then
    (if Req_EM_T x 0 then NaN else if Rlt_dec 0 x then PosInf else NegInf)
  else Fin (x / y).

(** [arr.max()]; [None] is numpy's error on an empty array. *)
Definition np_max (l : list R) : option R :=
  match l with
  | [] => None
  | x :: l' => Some (fold_left Rmax l' x)
  end.

Fixpoint zip_with {X Y Z} (f : X -> Y -> Z) (a : list X) (b : list Y) : list Z :=
  match a, b with
  | x :: a', y :: b' => f x y :: zip_with f a' b'
  | _, _ => []
  end.

Definition sum_R (l : list R) : R := fold_right Rplus 0%R l.

(** [len(index.unique(level=...))] *)
Definition n_unique (l : list nat) : nat := length (nodup Nat.eq_dec l).

(** [values.reshape(k, n, ...)] of a C-ordered array, along its first
    axis: [k] consecutive blocks of [n] rows. *)
Fixpoint reshape_blocks {X} (k n : nat) (l : list X) : list (list X) :=
  match k with
  | 0 => []
  | S k' => firstn n l :: reshape_blocks k' n (skipn n l)
  end.

(** [values.mean(axis=0)] of an [(n_epochs, n_samples, n_channels)]
    array. *)
Definition mean_axis0 (n_samples n_channels : nat) (values : list (list (list R)))
  : list (list R) :=
  map (map (fun x => x / INR (length values))%R)
      (fold_right (zip_with (zip_with Rplus))
                  (repeat (repeat 0%R n_channels) n_samples) values).

(** [l2_norm(data)] of one epoch's [(n_samples, n_channels)] slice:
    summing over the samples axis leaves one value per channel. *)
Definition l2_norm_samples (n_channels : nat) (block : list (list R)) : list R :=
  map sqrt (fold_right (zip_with Rplus) (repeat 0%R n_channels)
                       (map (map (fun x => x * x)%R) block)).

(** [l2_norm(...)] of one epoch's per-channel values. *)
Definition l2_norm_channels (v : list R) : R :=
  sqrt (sum_R (map (fun x => x * x)%R v)).

Section Distances.

Variable TIME : string.

Definition dist_sizes (ep : Epochs R) : nat * nat * nat :=
  let rows := t_rows (e_table ep) in
  (length (e_channels ep), n_unique (map (fun r => r_epoch r) rows),
   n_unique (map (fun r => r_time r) rows)).

(** [table.values.reshape(n_epochs, n_samples, n_channels)] *)
Definition reshaped (ep : Epochs R) : list (list (list R)) :=
  let '(n_channels, n_epochs, n_samples) := dist_sizes ep in
  reshape_blocks n_epochs n_samples
    (map (fun r => map (r_data r) (e_channels ep)) (t_rows (e_table ep))).

(** [distances_arr = l2_norm(l2_norm(values - mean))] *)
Definition distances_arr (n_samples n_channels : nat) (values : list (list (list R)))
  : list R :=
  let mean := mean_axis0 n_samples n_channels values in
  let diff := map (fun b => zip_with (zip_with Rminus) b mean) values in
  map (fun b => l2_norm_channels (l2_norm_samples n_channels b)) diff.

(** [Epochs.distances] *)
Definition distances (ep : Epochs R) : Result (list (nat * FVal)) :=
  let rows := t_rows (e_table ep) in
  let chans := e_channels ep in
  (* [table.reset_index().set_index([EPOCH_ID, TIME])[self.channels]] *)
  match filter (fun c => negb (mem c (remove string_dec TIME (t_columns (e_table ep))))) chans with
  | c :: _ => Raise (mkExc "KeyError" [AStr c])
  | [] =>
      let '(n_channels, n_epochs, n_samples) := dist_sizes ep in
      if negb (Nat.eqb (length rows * n_channels) (n_channels * n_epochs * n_samples))
      then Raise (mkExc "AssertionError" [])
      else
        let arr := distances_arr n_samples n_channels (reshaped ep) in
        match np_max arr with
        | None => Raise (mkExc "ValueError" [AStr "zero-size array to reduction operation maximum"])
        | Some mx =>
            let scaled := map (fun d => np_div d mx) arr in
            if Nat.eqb (length scaled) (length (e_epoch_index ep))
            then Ok (combine (e_epoch_index ep) scaled)
            else Raise (mkExc "ValueError" [AStr "Length of values does not match length of index"])
        end
  end.

End Distances.

(* ------------------------------------------------------------------ *)
(** ** [Epochs.mlm] *)

Section Mlm.

Variable V : Type.
Variable TIME : string.
Variable A : Type.

(** statsmodels' [mixedlm(formula, data, re_formula=..., vc_formula=...,
    groups=...)]: it builds the model object (the call may raise). *)
Variable mixedlm : string -> list (Row V) -> PyVal -> PyVal -> PyVal -> Result A.

(** [Epochs.mlm]: the cells hold the models [mixedlm] built; they are not
    fitted, and the run is always serial. *)
Definition mlm (ep : Epochs V) (LHS : option PyVal) (RHS : PyVal)
  (re_formula vc_formula groups : PyVal) : Result (Grid A) :=
  let LHS := match LHS with None => PyList (map PyStr (e_channels ep)) | Some l => l end in
  _ <- validate_LHS (e_table ep) LHS ;;
  rhs <- validate_RHS RHS ;;
  let mixed_linear_model := fun data channel =>
    mixedlm (channel ++ " ~ " ++ rhs) data re_formula vc_formula groups in
  run_model TIME ep mixed_linear_model (Some LHS) Serial.

End Mlm.

(* ------------------------------------------------------------------ *)
(** ** The older grid builder of [fitgrid/_core.py] *)

Section Core.

Variable V : Type.
Variables EPOCH_ID TIME : string.
Variable A : Type.

Definition EegrError (msg : string) : Exc := mkExc "EegrError" [AStr msg].

(** [_check_group_indices(group_by, EPOCH_ID)]: the [EPOCH_ID] level
    values of each group against the previous group's. *)
Fixpoint check_group_indices_from (prev : option (list (Row V)))
  (gs : list (nat * list (Row V))) : bool * option nat :=
  match gs with
  | [] => (true, None)
  | (idx, cur) :: gs' =>
      match prev with
      | Some p =>
          if index_equals (ids p) (ids cur) then check_group_indices_from (Some cur) gs'
          else (false, Some idx)
      | None => check_group_indices_from (Some cur) gs'
      end
  end.

Definition check_group_indices (gs : list (nat * list (Row V))) : bool * option nat :=
  check_group_indices_from None gs.

(** [channel + ' ~ ' + RHS]: Python refuses to concatenate a non-string. *)
Definition formula_of (channel : string) (RHS : PyVal) : Result string :=
  match RHS with
  | PyStr r => Ok (channel ++ " ~ " ++ r)
  | _ => Raise (mkExc "TypeError" [AStr "can only concatenate str to str"])
  end.

(** [group_by_time.apply(regression, formula)]: one value per time key,
    in key order; the first raising group aborts. *)
Definition apply_regression (regression : list (Row V) -> string -> Result A)
  (gb : list (nat * list (Row V))) (formula : string) : Result (list (nat * A)) :=
  collect (map (fun kg => v <- regression (snd kg) formula ;; Ok (fst kg, v)) gb).

(** [{channel: group_by_time.apply(regression, channel + ' ~ ' + RHS)
      for channel in LHS}] *)
Fixpoint build_columns (regression : list (Row V) -> string -> Result A)
  (gb : list (nat * list (Row V))) (LHS : list string) (RHS : PyVal)
  (acc : list (string * list (nat * A))) : Result (list (string * list (nat * A))) :=
  match LHS with
  | [] => Ok acc
  | c :: cs =>
      formula <- formula_of c RHS ;;
      s <- apply_regression regression gb formula ;;
      build_columns regression gb cs RHS (dict_set c s acc)
  end.

(** [build(epochs, LHS, RHS)]; [regression] is [ols(formula, data).fit()].
    The grid is returned as its columns: channel, then the column's
    (time key, fit) entries. *)
Definition build (regression : list (Row V) -> string -> Result A) (epochs : Table V)
  (LHS RHS : PyVal) : Result (list (string * list (nat * A))) :=
  match as_str_list LHS with
  | None => Raise (EegrError "LHS must be a list of strings.")
  | Some lhs =>
      if mem TIME (t_index epochs) && mem EPOCH_ID (t_index epochs) then
        let group_by_time := groupby_time (t_rows epochs) in
        match check_group_indices group_by_time with
        | (true, _) => build_columns regression group_by_time lhs RHS []
        | (false, Some idx) =>
            Raise (mkExc "EegrError"
                     [AStr "Snapshot differs from previous snapshot in index."; ANat idx])
        | (false, None) =>
            Raise (EegrError "Snapshot None differs from previous snapshot in index.")
        end
      else Raise (mkExc "AssertionError" [])
  end.

End Core.

(* ------------------------------------------------------------------ *)
(** ** Re-indexing by both keys, and the readers of [fitgrid/io.py] *)

(** [df.set_index([EPOCH_ID, TIME])] (as [Epochs.distances] uses it): both
    keys leave the columns and become the index levels. *)
Definition set_index_keys {V} (EPOCH_ID TIME : string) (tbl : Table V) : Result (Table V) :=
  match filter (fun k => negb (mem k (t_columns tbl))) [EPOCH_ID; TIME] with
  | [] => Ok (mkTable [EPOCH_ID; TIME]
                      (remove string_dec TIME (remove string_dec EPOCH_ID (t_columns tbl)))
                      (t_rows tbl))
  | missing => Raise (mkExc "KeyError" [AStrs missing])
  end.

(** [Epochs(df, time=time, epoch_id=epoch_id, channels=channels)]:
    [Epochs.__init__] takes [epochs_table] and [channels] only, so Python
    rejects the call at its first unexpected keyword, [time]. *)
Definition epochs_kw_call {V} (df : Table V) (time epoch_id : string) (channels : PyVal)
  : Result (Epochs V) :=
  Raise (mkExc "TypeError" [AStr "__init__() got an unexpected keyword argument 'time'"]).

Definition is_py_none (v : PyVal) : bool :=
  match v with PyNone => true | _ => false end.

(** [epochs_from_hdf(hdf_filename, key, time, epoch_id, channels)]; [df] is
    the outcome of [pd.read_hdf(hdf_filename, key=key)], and [None] stands
    for a [time] or [epoch_id] passed as [None]. *)
Definition epochs_from_hdf {V} (df : Result (Table V)) (time epoch_id : option string)
  (channels : PyVal) : Result (Epochs V) :=
  match time, epoch_id with
  | Some time, Some epoch_id =>
      if is_py_none channels
      then Raise (FitGridError "Please provide `time`, `epoch_id`, and `channels` parameters. You can use the defaults, for example: time=fitgrid.defaults.TIME")
      else
        d <- df ;;
        if mem epoch_id (t_index d) && mem time (t_index d)
        then epochs_kw_call d time epoch_id channels
        else if mem epoch_id (t_columns d) && mem time (t_columns d)
        then d' <- set_index_keys epoch_id time d ;; epochs_kw_call d' time epoch_id channels
        else Raise (FitGridError ("Dataset has to contain " ++ epoch_id ++ " and " ++ time
                                  ++ " as columns or indices."))
  | _, _ => Raise (FitGridError "Please provide `time`, `epoch_id`, and `channels` parameters. You can use the defaults, for example: time=fitgrid.defaults.TIME")
  end.

(** [epochs_from_dataframe(dataframe, time, epoch_id, channels)] *)
Definition epochs_from_dataframe {V} (dataframe : Table V) (time epoch_id : string)
  (channels : PyVal) : Result (Epochs V) :=
  epochs_kw_call dataframe time epoch_id channels.

(** [epochs_from_feather(filename, time, epoch_id, channels)]; [check] is
    the outcome of [check_pandas_pyarrow_versions()] (an [ImportError] for
    the installed pandas or pyarrow too old), [df] that of
    [pd.read_feather(filename)]. *)
Definition epochs_from_feather {V} (check : Result unit) (df : Result (Table V))
  (time epoch_id : string) (channels : PyVal) : Result (Epochs V) :=
  _ <- check ;;
  d <- df ;;
  if mem epoch_id (t_columns d) && mem time (t_columns d)
  then d' <- set_index_keys epoch_id time d ;; epochs_kw_call d' time epoch_id channels
  else Raise (FitGridError ("Dataset has to contain " ++ epoch_id ++ " and " ++ time
                            ++ " as columns or indices.")).

(** Runs that end with every task done: serial, or a pool of at least one
    worker whose completions cover every task. *)
Definition completes {V : Type} (ep : Epochs V) (mode : Mode) : Prop :=
  mode = Serial \/
  exists n_cores sched dump_task dump_reply,
    mode = Parallel n_cores sched dump_task dump_reply /\ 1 <= n_cores /\
    Permutation sched (seq 0 (length (groupby_time (t_rows (e_table ep))))).


(* ------------------------------------------------------------------ *)
(** ** Concrete inputs *)

(** Two trials, two time points, same order at both. *)
Definition ex_aligned : Table nat :=
  mkTable [ex_epoch; ex_time] ["A"; "B"] [ex_row 1 0; ex_row 2 0; ex_row 1 1; ex_row 2 1].

Definition ex_ep : Epochs nat :=
  mkEpochs ["A"; "B"] (mkTable [ex_epoch] [ex_time; "A"; "B"] (t_rows ex_aligned)) [1; 2].

Definition ex_count (g : list (Row nat)) (c : string) : Result nat := Ok (length g).

Definition ex_singular : Exc := mkExc "LinAlgError" [AStr "Singular matrix"].

(** What pickling a [lambda] callable raises. *)
Definition ex_lambda_pickling_error : Exc :=
  mkExc "PicklingError"
    [AStr "Can't pickle <function <lambda> at 0x7f0e4c2b1d30>: attribute lookup <lambda> on __main__ failed"].

(** A fitting callable that fails at time 1. *)
Definition ex_fail (g : list (Row nat)) (c : string) : Result nat :=
  match g with
  | r :: _ => if Nat.eqb (r_time r) 1 then Raise ex_singular else Ok 0
  | [] => Ok 0
  end.

Definition ex_lmer (g : list (Row nat)) (c rhs : string) : Result nat := Ok (length g).

(** The keys as plain columns, no index levels. *)
Definition ex_cols : Table nat :=
  mkTable [] [ex_epoch; ex_time; "A"; "B"] (t_rows ex_aligned).

Definition ex_heap : Heap nat :=
  mkHeap 1 (fun l => if Nat.eqb l 0 then Some ex_aligned else None).

Definition ex_ols_result : PyObj :=
  mkPyObj ["RegressionResultsWrapper"; "ResultsWrapper"; "object"].

(** Two trials, one time point, one channel [A]: trial 1 reads [x] and
    trial 2 reads [y]. *)
Definition ex_pair (x y : R) : Table R :=
  mkTable [ex_epoch; ex_time] ["A"] [mkRow 1 0 (fun _ => x); mkRow 2 0 (fun _ => y)].

(** The container [Epochs(ex_pair x y, channels=["A"])]. *)
Definition ex_pair_ep (x y : R) : Epochs R :=
  mkEpochs ["A"] (mkTable [ex_epoch] [ex_time; "A"] (t_rows (ex_pair x y))) [1; 2].



(** A model builder that records the size of its group. *)
Definition ex_mixedlm (formula : string) (g : list (Row nat)) (re_formula vc_formula groups : PyVal)
  : Result nat := Ok (length g).

Unset Implicit Arguments.

(* ------------------------------------------------------------------ *)
(** ** Facts about the snapshot check *)

Lemma In_ins_uniq x l y : In y (ins_uniq x l) <-> y = x \/ In y l.
Proof.
  induction l as [|a l IH]; simpl.
  - intuition congruence.
  - destruct (Nat.ltb x a) eqn:Hlt; simpl; [intuition congruence|].
    destruct (Nat.eqb x a) eqn:Heq; simpl.
    + apply Nat.eqb_eq in Heq; subst; intuition congruence.
    + rewrite IH; intuition congruence.
Qed.

Lemma ins_uniq_not_nil x l : ins_uniq x l <> [].
Proof.
  destruct l as [|a l]; simpl; [discriminate|].
  destruct (Nat.ltb x a), (Nat.eqb x a); discriminate.
Qed.

Lemma index_equals_true l1 l2 : index_equals l1 l2 = true <-> l1 = l2.
Proof.
  unfold index_equals; destruct (list_eq_dec Nat.eq_dec l1 l2); split; congruence.
Qed.

Lemma is_unique_true l : is_unique l = true <-> NoDup l.
Proof.
  induction l as [|x l IH]; simpl.
  - split; [constructor|reflexivity].
  - rewrite andb_true_iff, negb_true_iff, IH. split.
    + intros [Hx Hnd]. constructor; [|exact Hnd].
      intro Hin. assert (E : existsb (Nat.eqb x) l = true)
        by (apply existsb_exists; exists x; split; [exact Hin|apply Nat.eqb_refl]).
      congruence.
    + intros Hnd. inversion Hnd as [|? ? Hx Hnd']; subst. split; [|exact Hnd'].
      destruct (existsb (Nat.eqb x) l) eqn:E; [|reflexivity].
      apply existsb_exists in E. destruct E as (y & Hy & Exy).
      apply Nat.eqb_eq in Exy. subst. contradiction.
Qed.

Section SnapshotFacts.

Variable V : Type.
Variables EPOCH_ID TIME : string.
Variable CHANNELS : list string.

Lemma In_times (rows : list (Row V)) t :
  In t (times rows) <-> exists r, In r rows /\ r_time r = t.
Proof.
  induction rows as [|r rows IH]; simpl.
  - split; [tauto|]. intros (r & [] & _).
  - rewrite In_ins_uniq, IH. split.
    + intros [H|(r' & H1 & H2)]; [exists r; auto|eauto].
    + intros (r' & [H1|H1] & H2); [subst; auto|eauto].
Qed.

Lemma times_cons (rows : list (Row V)) :
  rows <> [] -> exists t ts, times rows = t :: ts.
Proof.
  destruct rows as [|r rows]; [congruence|]. intros _. simpl.
  destruct (ins_uniq (r_time r) (times rows)) as [|t ts] eqn:E.
  - exfalso; exact (ins_uniq_not_nil _ _ E).
  - eauto.
Qed.

Lemma check_snapshots_ok (gs : list (nat * list (Row V))) p x :
  check_snapshots (Some p) gs = Ok x ->
  (forall g, In g gs -> ids (snd g) = ids p) /\ exists q, x = Some q /\ ids q = ids p.
Proof.
  revert p. induction gs as [|[idx cur] gs IH]; intros p H; simpl in H.
  - inversion H; subst. split; [intros _ []|eauto].
  - destruct (index_equals (ids p) (ids cur)) eqn:E; [|discriminate].
    apply index_equals_true in E.
    destruct (IH _ H) as [Hall (q & -> & Hq)]. split.
    + intros g [<-|Hg]; simpl; [congruence|]. rewrite Hall by exact Hg. congruence.
    + exists q; split; congruence.
Qed.

Lemma check_snapshots_all (gs : list (nat * list (Row V))) p :
  (forall g, In g gs -> ids (snd g) = ids p) ->
  exists q, check_snapshots (Some p) gs = Ok (Some q) /\ ids q = ids p.
Proof.
  revert p. induction gs as [|[idx cur] gs IH]; intros p H; simpl.
  - eauto.
  - assert (Hc : ids cur = ids p) by exact (H _ (or_introl eq_refl)).
    rewrite (proj2 (index_equals_true _ _) (eq_sym Hc)).
    destruct (IH cur) as (q & Hq & Hids).
    + intros g Hg. rewrite Hc. exact (H g (or_intror Hg)).
    + exists q. split; congruence.
Qed.

Lemma check_snapshots_raise (gs : list (nat * list (Row V))) p e :
  check_snapshots p gs = Raise e -> exc_type e = "FitGridError".
Proof.
  revert p. induction gs as [|[idx cur] gs IH]; intros p H; simpl in H.
  - discriminate.
  - destruct p as [p|]; [|exact (IH _ H)].
    destruct (index_equals (ids p) (ids cur)); [exact (IH _ H)|].
    inversion H; reflexivity.
Qed.

(** Every row's time key carries the first snapshot's trial ids once the
    check has passed. *)
Lemma check_pass_ids (rows : list (Row V)) t ts x :
  times rows = t :: ts ->
  check_snapshots (Some (time_group rows t)) (map (fun t => (t, time_group rows t)) ts) = Ok x ->
  forall r, In r rows -> ids_at rows (r_time r) = ids (time_group rows t).
Proof.
  intros Ht Hc r Hr.
  destruct (check_snapshots_ok _ _ _ Hc) as [Hall _].
  assert (Hin : In (r_time r) (times rows)) by (apply In_times; eauto).
  rewrite Ht in Hin. destruct Hin as [<-|Hin]; [reflexivity|].
  unfold ids_at.
  exact (Hall (r_time r, time_group rows (r_time r))
           (in_map (fun t => (t, time_group rows t)) _ _ Hin)).
Qed.

Lemma snapshot_stage_ok chans (table : Table V) :
  (exists ep, snapshot_stage chans table = Ok ep) <-> same_trial_sequence (t_rows table).
Proof.
  unfold snapshot_stage, groupby_time.
  set (rows := t_rows table). split.
  - intros (ep & H).
    assert (Hne : rows <> []) by (intro E; rewrite E in H; discriminate).
    destruct (times_cons rows Hne) as (t & ts & Ht). rewrite Ht in H. simpl in H.
    destruct (check_snapshots (Some (time_group rows t))
                (map (fun t => (t, time_group rows t)) ts)) as [x|e] eqn:Hc;
      simpl in H; [|discriminate].
    destruct (check_snapshots_ok _ _ _ Hc) as [_ (q & -> & Hq)].
    destruct (is_unique (ids q)) eqn:Hu; [|discriminate].
    apply is_unique_true in Hu. rewrite Hq in Hu.
    pose proof (check_pass_ids _ _ _ _ Ht Hc) as Hids.
    split; [exact Hne|split].
    + intros r1 r2 H1 H2. rewrite (Hids r1 H1), (Hids r2 H2). reflexivity.
    + intros r Hr. rewrite (Hids r Hr). exact Hu.
  - intros (Hne & Hsame & Hnd).
    destruct (times_cons rows Hne) as (t & ts & Ht). rewrite Ht. simpl.
    assert (Ht0 : In t (times rows)) by (rewrite Ht; left; reflexivity).
    apply In_times in Ht0. destruct Ht0 as (r0 & Hr0 & Hr0t).
    destruct (check_snapshots_all (map (fun t => (t, time_group rows t)) ts)
                (time_group rows t)) as (q & Hq & Hqids).
    + intros g Hg. apply in_map_iff in Hg. destruct Hg as (t' & <- & Ht').
      assert (Hin : In t' (times rows)) by (rewrite Ht; right; exact Ht').
      apply In_times in Hin. destruct Hin as (r' & Hr' & <-).
      simpl. rewrite <- Hr0t. exact (Hsame r' r0 Hr' Hr0).
    + rewrite Hq. simpl.
      assert (Hu : is_unique (ids q) = true).
      { apply is_unique_true. rewrite Hqids, <- Hr0t. exact (Hnd r0 Hr0). }
      rewrite Hu. eauto.
Qed.

Lemma snapshot_stage_raise chans (table : Table V) e :
  t_rows table <> [] -> snapshot_stage chans table = Raise e ->
  exc_type e = "FitGridError".
Proof.
  unfold snapshot_stage, groupby_time. intros Hne H.
  destruct (times_cons _ Hne) as (t & ts & Ht). rewrite Ht in H. simpl in H.
  destruct (check_snapshots (Some (time_group (t_rows table) t))
              (map (fun t => (t, time_group (t_rows table) t)) ts)) as [x|e'] eqn:Hc;
    simpl in H.
  - destruct (check_snapshots_ok _ _ _ Hc) as [_ (q & -> & _)].
    destruct (is_unique (ids q)); inversion H; reflexivity.
  - inversion H; subst. exact (check_snapshots_raise _ _ _ Hc).
Qed.

Lemma reset_index_rows (tbl t1 : Table V) :
  reset_index tbl = Ok t1 -> t_rows t1 = t_rows tbl.
Proof.
  unfold reset_index. destruct (filter _ _); intros H; inversion H; reflexivity.
Qed.

Lemma set_index_epoch_rows (tbl t1 : Table V) :
  set_index_epoch EPOCH_ID tbl = Ok t1 -> t_rows t1 = t_rows tbl.
Proof.
  unfold set_index_epoch. destruct (mem _ _); intros H; inversion H; reflexivity.
Qed.

Lemma prechecks_rows (tbl : Table V) ch chans table :
  prechecks EPOCH_ID TIME CHANNELS tbl ch = Ok (chans, table) ->
  t_rows table = t_rows tbl.
Proof.
  unfold prechecks. intros H.
  repeat match type of H with
         | context [match ?x with _ => _ end] =>
             match x with
             | reset_index _ => fail 1
             | _ => destruct x
             end
         end; try discriminate.
  destruct (reset_index tbl) as [t1|e] eqn:E1; simpl in H; [|discriminate].
  destruct (set_index_epoch EPOCH_ID t1) as [t2|e] eqn:E2; simpl in H; [|discriminate].
  inversion H; subst.
  rewrite (set_index_epoch_rows _ _ E2). exact (reset_index_rows _ _ E1).
Qed.

End SnapshotFacts.

(* ------------------------------------------------------------------ *)
(** ** C1: what construction accepts *)

(** C1 (corrected).  For a table that passes the checks before the
    snapshot loop (a valid channel list, both keys among the index levels,
    no index level clashing with a column), construction succeeds iff the
    table is non-empty and every time key carries the very same sequence of
    trial ids, compared by value and order as the partition rule does,
    without repeats; on a non-empty table every failure is a
    [FitGridError].  Equal membership is not enough: the check compares
    sequences, so the same ids in another order are rejected. *)
Theorem construct_accepts_iff_same_trial_sequence
  (V : Type) (EPOCH_ID TIME : string) (CHANNELS : list string)
  (tbl : Table V) (ch : PyVal) (chans : list string) (table : Table V) :
  prechecks EPOCH_ID TIME CHANNELS tbl ch = Ok (chans, table) ->
  ((exists ep, construct EPOCH_ID TIME CHANNELS tbl ch = Ok ep) <->
     same_trial_sequence (t_rows tbl)) /\
  (t_rows tbl <> [] -> forall e,
     construct EPOCH_ID TIME CHANNELS tbl ch = Raise e -> exc_type e = "FitGridError").
Proof.
  intros Hpre.
  assert (Hc : construct EPOCH_ID TIME CHANNELS tbl ch = snapshot_stage chans table)
    by (unfold construct; rewrite Hpre; reflexivity).
  rewrite Hc, <- (prechecks_rows _ _ _ _ _ _ _ _ Hpre). split.
  - apply snapshot_stage_ok.
  - intros Hne e He. exact (snapshot_stage_raise _ _ _ _ Hne He).
Qed.

Lemma construct_accepts_iff_same_trial_sequence_witness :
  prechecks ex_epoch ex_time [] ex_aligned (PyList [PyStr "A"])
    = Ok (["A"], mkTable [ex_epoch] [ex_time; "A"; "B"] (t_rows ex_aligned)) /\
  (exists ep, construct ex_epoch ex_time [] ex_aligned (PyList [PyStr "A"]) = Ok ep).
Proof.
  split; [vm_compute; reflexivity|].
  apply (construct_accepts_iff_same_trial_sequence nat ex_epoch ex_time [] ex_aligned
           (PyList [PyStr "A"]) ["A"] (mkTable [ex_epoch] [ex_time; "A"; "B"] (t_rows ex_aligned))).
  - vm_compute; reflexivity.
  - split; [discriminate|split].
    + intros r1 r2 H1 H2; simpl in H1, H2.
      destruct H1 as [<-|[<-|[<-|[<-|[]]]]]; destruct H2 as [<-|[<-|[<-|[<-|[]]]]];
        reflexivity.
    + intros r H; simpl in H.
      destruct H as [<-|[<-|[<-|[<-|[]]]]]; vm_compute;
        repeat constructor; simpl; intuition discriminate.
Defined.

(** C1, the claim as stated fails: the swapped table passes the earlier
    checks and its time keys have the same trial-id members without
    repeats, yet construction raises, since the snapshot check compares
    the trial ids by value and order. *)
Lemma construct_rejects_same_members_counterexample :
  prechecks ex_epoch ex_time [] ex_swapped (PyList [PyStr "A"])
    = Ok (["A"], mkTable [ex_epoch] [ex_time; "A"; "B"] (t_rows ex_swapped)) /\
  same_members (t_rows ex_swapped) /\
  construct ex_epoch ex_time [] ex_swapped (PyList [PyStr "A"])
    = Raise (mkExc "FitGridError"
               [AStr "Snapshot differs from previous snapshot in index";
                ANat 1; ANats [2; 1]; ANats [1; 2]]).
Proof.
  split; [vm_compute; reflexivity|split; [|vm_compute; reflexivity]].
  split; [discriminate|split].
  - intros r1 r2 H1 H2 e; simpl in H1, H2.
    destruct H1 as [<-|[<-|[<-|[<-|[]]]]]; destruct H2 as [<-|[<-|[<-|[<-|[]]]]];
      vm_compute; tauto.
  - intros r H; simpl in H.
    destruct H as [<-|[<-|[<-|[<-|[]]]]]; vm_compute;
      repeat constructor; simpl; intuition discriminate.
Qed.

(* ------------------------------------------------------------------ *)
(** ** Facts about the pool, the collection of results and the channel dict *)

Lemma set_nth_length {X} n (x : X) l : length (set_nth n x l) = length l.
Proof. revert n; induction l as [|y l IH]; intros [|n]; simpl; auto. Qed.

Lemma nth_error_set_nth_same {X} n (x : X) l :
  n < length l -> nth_error (set_nth n x l) n = Some x.
Proof.
  revert n; induction l as [|y l IH]; intros [|n] H; simpl in *; try lia; auto.
  apply IH; lia.
Qed.

Lemma nth_error_set_nth_other {X} n m (x : X) l :
  n <> m -> nth_error (set_nth n x l) m = nth_error l m.
Proof.
  revert n m; induction l as [|y l IH]; intros [|n] [|m] H; simpl; auto; try congruence.
Qed.

Section Pool.

Variables X Y : Type.
Variable task : X -> Y.
Variable xs : list X.

Let step := fun slots i =>
  match nth_error xs i with
  | Some x => set_nth i (Some (task x)) slots
  | None => slots
  end.

Lemma pool_fold_length sched slots :
  length (fold_left step sched slots) = length slots.
Proof.
  revert slots; induction sched as [|j sched IH]; intros slots; simpl; [reflexivity|].
  rewrite IH. unfold step. destruct (nth_error xs j); [apply set_nth_length|reflexivity].
Qed.

Lemma pool_fold_untouched sched slots i :
  ~ In i sched -> nth_error (fold_left step sched slots) i = nth_error slots i.
Proof.
  revert slots; induction sched as [|j sched IH]; intros slots Hi; simpl; [reflexivity|].
  rewrite IH by (intro; apply Hi; right; assumption).
  unfold step. destruct (nth_error xs j); [|reflexivity].
  apply nth_error_set_nth_other. intro; apply Hi; left; assumption.
Qed.

Lemma pool_fold_done sched slots i x :
  length slots = length xs -> nth_error xs i = Some x -> In i sched ->
  nth_error (fold_left step sched slots) i = Some (Some (task x)).
Proof.
  revert slots; induction sched as [|j sched IH]; intros slots Hlen Hx Hi; [destruct Hi|].
  simpl. destruct (in_dec Nat.eq_dec i sched) as [Hin|Hout].
  - apply IH; [|exact Hx|exact Hin].
    unfold step. destruct (nth_error xs j); [rewrite set_nth_length|]; exact Hlen.
  - destruct Hi as [->|Hin]; [|contradiction].
    rewrite pool_fold_untouched by exact Hout.
    unfold step. rewrite Hx. apply nth_error_set_nth_same.
    rewrite Hlen. apply nth_error_Some. congruence.
Qed.

(** Every filled slot holds the result of its own task. *)
Lemma pool_fold_slot sched slots i y :
  (forall k y', nth_error slots k = Some (Some y') ->
     exists x, nth_error xs k = Some x /\ y' = task x) ->
  nth_error (fold_left step sched slots) i = Some (Some y) ->
  exists x, nth_error xs i = Some x /\ y = task x.
Proof.
  revert slots; induction sched as [|j sched IH]; intros slots Hinv H; simpl in H.
  - exact (Hinv _ _ H).
  - refine (IH _ _ H). intros k y' Hk. unfold step in Hk.
    destruct (nth_error xs j) as [xj|] eqn:Ej; [|exact (Hinv _ _ Hk)].
    destruct (Nat.eq_dec j k) as [<-|Hne].
    + destruct (Nat.lt_ge_cases j (length slots)) as [Hlt|Hge].
      * rewrite nth_error_set_nth_same in Hk by exact Hlt. inversion Hk; eauto.
      * assert (Hn : nth_error (set_nth j (Some (task xj)) slots) j = None)
          by (apply nth_error_None; rewrite set_nth_length; exact Hge).
        congruence.
    + rewrite nth_error_set_nth_other in Hk by exact Hne. exact (Hinv _ _ Hk).
Qed.

Lemma pool_imap_perm sched :
  Permutation sched (seq 0 (length xs)) ->
  pool_imap task xs sched = map (fun x => Some (task x)) xs.
Proof.
  intros Hp. unfold pool_imap. fold step.
  apply nth_error_ext. intros i.
  destruct (nth_error xs i) as [x|] eqn:Ex.
  - rewrite nth_error_map, Ex. simpl. apply pool_fold_done.
    + apply repeat_length.
    + exact Ex.
    + apply (Permutation_in _ (Permutation_sym Hp)). apply in_seq.
      split; [lia|]. apply nth_error_Some. congruence.
  - rewrite nth_error_map, Ex. simpl. apply nth_error_None.
    rewrite pool_fold_length, repeat_length. apply nth_error_None. exact Ex.
Qed.

Lemma pool_imap_slot sched i y :
  nth_error (pool_imap task xs sched) i = Some (Some y) ->
  exists x, nth_error xs i = Some x /\ y = task x.
Proof.
  unfold pool_imap. fold step. apply pool_fold_slot.
  intros k y' Hk.
  destruct (Nat.lt_ge_cases k (length xs)) as [Hlt|Hge].
  - rewrite nth_error_repeat in Hk by exact Hlt. discriminate.
  - rewrite (proj2 (nth_error_None _ _)) in Hk by (rewrite repeat_length; exact Hge).
    discriminate.
Qed.

End Pool.

Lemma collect_imap_some {X Y} (task : X -> Result Y) xs :
  collect_imap (map (fun x => Some (task x)) xs) = collect (map task xs).
Proof. induction xs as [|x xs IH]; simpl; [reflexivity|]. rewrite IH. reflexivity. Qed.

Lemma collect_raises {X} (l : list (Result X)) e0 :
  In (Raise e0) l -> exists e, collect l = Raise e.
Proof.
  induction l as [|r l IH]; intros Hin; [destruct Hin|].
  destruct r as [x|e]; simpl; [|eauto].
  destruct Hin as [Hr|Hin]; [discriminate|].
  destruct (IH Hin) as (e & He). rewrite He. simpl. eauto.
Qed.

Lemma collect_raise_from {X} (l : list (Result X)) e :
  collect l = Raise e -> In (Raise e) l.
Proof.
  induction l as [|r l IH]; simpl; [discriminate|].
  destruct r as [x|e']; simpl; [|intros H; inversion H; subst; left; reflexivity].
  destruct (collect l) as [xs|e'']; simpl; [discriminate|].
  intros H; inversion H; subst. right. apply IH. reflexivity.
Qed.

Lemma collect_first {X Y} (task : X -> Result Y) xs y ys :
  collect (map task xs) = Ok (y :: ys) -> exists x xs', xs = x :: xs' /\ task x = Ok y.
Proof.
  destruct xs as [|x xs]; simpl; [discriminate|].
  destruct (task x) as [v|e] eqn:Ex; simpl; [|discriminate].
  destruct (collect (map task xs)); simpl; intros H; inversion H; subst; eauto.
Qed.

Lemma collect_imap_first {Y} (l : list (option (Result Y))) y ys :
  collect_imap l = Ok (y :: ys) -> nth_error l 0 = Some (Some (Ok y)).
Proof.
  destruct l as [|[r|] l]; simpl; try discriminate.
  destruct r as [v|e]; simpl; [|discriminate].
  destruct (collect_imap l); simpl; intros H; inversion H; subst; reflexivity.
Qed.

Lemma pool_worker_ok {X Y} (task : X -> Result Y) dump_task dump_reply i x y :
  pool_worker task dump_task dump_reply (i, x) = Ok y -> task x = Ok y.
Proof.
  simpl. destruct (dump_task i); [discriminate|].
  destruct (dump_reply i) as [[a b]|]; [discriminate|exact (fun H => H)].
Qed.

Lemma pool_worker_raise {X Y} (task : X -> Result Y) dump_task dump_reply i x e :
  pool_worker task dump_task dump_reply (i, x) = Raise e ->
  task x = Raise e \/ dump_task i = Some e \/
  exists exc_repr value_repr, dump_reply i = Some (exc_repr, value_repr) /\
                              e = MaybeEncodingError exc_repr value_repr.
Proof.
  simpl. destruct (dump_task i) as [e'|]; [intros H; inversion H; subst; right; left; reflexivity|].
  destruct (dump_reply i) as [[a b]|].
  - intros H; inversion H; subst. right; right. exists a, b. split; reflexivity.
  - intros H; left; exact H.
Qed.

Lemma length_enumerate {X} k (l : list X) : length (combine (seq k (length l)) l) = length l.
Proof. rewrite length_combine, length_seq. apply Nat.min_id. Qed.


Lemma collect_pool_worker_ok {X Y} (task : X -> Result Y) dump_task dump_reply (l : list X) k ys :
  collect (map (pool_worker task dump_task dump_reply) (combine (seq k (length l)) l)) = Ok ys ->
  collect (map task l) = Ok ys.
Proof.
  revert k ys; induction l as [|x l IH]; intros k ys H; [exact H|].
  cbn [length seq combine map collect] in H |- *.
  destruct (pool_worker task dump_task dump_reply (k, x)) as [y|e] eqn:Ew; simpl in H;
    [|discriminate].
  rewrite (pool_worker_ok _ _ _ _ _ _ Ew). simpl.
  destruct (collect (map (pool_worker task dump_task dump_reply) (combine (seq (S k) (length l)) l)))
    as [ys'|e] eqn:Er; simpl in H; [|discriminate].
  rewrite (IH _ _ Er). exact H.
Qed.

Lemma in_enumerate_ex {X} k (l : list X) x :
  In x l -> exists i, In (i, x) (combine (seq k (length l)) l).
Proof.
  revert k; induction l as [|y l IH]; intros k H; [destruct H|].
  destruct H as [->|H].
  - exists k. left. reflexivity.
  - destruct (IH (S k) H) as (i & Hi). exists i. right. exact Hi.
Qed.

Lemma in_enumerate {X} k (l : list X) i x :
  In (i, x) (combine (seq k (length l)) l) -> k <= i < k + length l /\ In x l.
Proof.
  intros H. split; [|exact (in_combine_r _ _ _ _ H)].
  apply in_combine_l, in_seq in H. exact H.
Qed.

Lemma all_str_map l : all_str (map PyStr l) = Some l.
Proof. induction l as [|x l IH]; simpl; [reflexivity|]. rewrite IH. reflexivity. Qed.

Lemma mem_In s l : mem s l = true <-> In s l.
Proof.
  unfold mem. rewrite existsb_exists. split.
  - intros (x & Hx & E). apply String.eqb_eq in E. subst. exact Hx.
  - intros H. exists s. split; [exact H|]. apply String.eqb_refl.
Qed.

Lemma missing_items_nil l cols :
  missing_items l cols = [] <-> forall c, In c l -> In c cols.
Proof.
  unfold missing_items. split.
  - intros H c Hc. destruct (mem c cols) eqn:E; [apply mem_In; exact E|].
    assert (Hin : In c (nodup string_dec (filter (fun c => negb (mem c cols)) l))).
    { apply nodup_In, filter_In. rewrite E. auto. }
    rewrite H in Hin. destruct Hin.
  - intros H. destruct (nodup string_dec (filter (fun c => negb (mem c cols)) l))
      as [|c rest] eqn:E; [reflexivity|].
    assert (Hin : In c (nodup string_dec (filter (fun c => negb (mem c cols)) l)))
      by (rewrite E; left; reflexivity).
    apply nodup_In, filter_In in Hin. destruct Hin as [Hc Hm].
    rewrite (proj2 (mem_In c cols) (H c Hc)) in Hm. discriminate.
Qed.

Section RunModelFacts.

Variables V A : Type.
Variable TIME : string.

Lemma dict_set_fresh k (v : A) d :
  ~ In k (map fst d) -> map fst (dict_set k v d) = (map fst d ++ [k])%list.
Proof.
  induction d as [|[k' v'] d IH]; simpl; intros Hk; [reflexivity|].
  destruct (String.eqb k k') eqn:E.
  - apply String.eqb_eq in E. subst. exfalso; apply Hk; left; reflexivity.
  - simpl. rewrite IH by tauto. reflexivity.
Qed.

Lemma dict_comp_keys (function : list (Row V) -> string -> Result A) g cs acc d :
  NoDup (map fst acc ++ cs)%list -> dict_comp function g cs acc = Ok d ->
  map fst d = (map fst acc ++ cs)%list.
Proof.
  revert acc; induction cs as [|c cs IH]; intros acc Hnd H; simpl in H.
  - inversion H; subst. rewrite app_nil_r. reflexivity.
  - destruct (function g c) as [v|e]; simpl in H; [|discriminate].
    assert (Hc : ~ In c (map fst acc)).
    { intro Hin. apply NoDup_remove_2 in Hnd. apply Hnd. apply in_or_app. left; exact Hin. }
    rewrite (IH _ ltac:(rewrite dict_set_fresh by exact Hc; rewrite <- app_assoc; exact Hnd) H).
    rewrite dict_set_fresh by exact Hc. rewrite <- app_assoc. reflexivity.
Qed.

Lemma dict_comp_raises (function : list (Row V) -> string -> Result A) g cs acc c e0 :
  In c cs -> function g c = Raise e0 -> exists e, dict_comp function g cs acc = Raise e.
Proof.
  revert acc; induction cs as [|c' cs IH]; intros acc Hin Hf; [destruct Hin|].
  simpl. destruct (function g c') as [v|e] eqn:E; simpl; [|eauto].
  destruct Hin as [->|Hin]; [congruence|]. exact (IH _ Hin Hf).
Qed.

Lemma dict_comp_raise_from (function : list (Row V) -> string -> Result A) g cs acc e :
  dict_comp function g cs acc = Raise e -> exists c, In c cs /\ function g c = Raise e.
Proof.
  revert acc; induction cs as [|c cs IH]; intros acc H; simpl in H; [discriminate|].
  destruct (function g c) as [v|e'] eqn:E; simpl in H.
  - destruct (IH _ H) as (c' & Hc' & Hf). exists c'. split; [right|]; assumption.
  - inversion H; subst. exists c. split; [left; reflexivity|exact E].
Qed.


(** A completed parallel run that returns a grid returns the serial run's
    grid. *)
Lemma run_model_parallel_ok (ep : Epochs V) (function : list (Row V) -> string -> Result A)
  channels n_cores sched dump_task dump_reply grid :
  1 <= n_cores ->
  Permutation sched (seq 0 (length (groupby_time (t_rows (e_table ep))))) ->
  run_model TIME ep function channels (Parallel n_cores sched dump_task dump_reply) = Ok grid ->
  run_model TIME ep function channels Serial = Ok grid.
Proof.
  intros Hn Hp. unfold run_model.
  destruct (validate_LHS _ _) as [chans|e]; simpl; [|discriminate].
  replace (Nat.eqb n_cores 0) with false by (symmetry; apply Nat.eqb_neq; lia).
  rewrite pool_imap_perm by (rewrite length_enumerate; exact Hp).
  rewrite collect_imap_some.
  match goal with |- bind (collect ?l) _ = _ -> _ =>
    destruct (collect l) as [rs|e] eqn:E; simpl; [|discriminate] end.
  rewrite (collect_pool_worker_ok _ _ _ _ _ _ E). simpl. exact (fun H => H).
Qed.

Lemma run_model_serial_raises (ep : Epochs V) (function : list (Row V) -> string -> Result A)
  channels chans t g c e0 :
  validate_LHS (e_table ep)
    (match channels with None => PyList (map PyStr (e_channels ep)) | Some c => c end)
    = Ok chans ->
  In (t, g) (groupby_time (t_rows (e_table ep))) -> In c chans -> function g c = Raise e0 ->
  exists e, run_model TIME ep function channels Serial = Raise e /\
    exists t' g' c', In (t', g') (groupby_time (t_rows (e_table ep))) /\ In c' chans /\
                     function g' c' = Raise e.
Proof.
  intros Hval Htg Hc Hf. unfold run_model. rewrite Hval. simpl.
  set (gb := groupby_time (t_rows (e_table ep))) in *.
  set (task := fun kg : nat * list (Row V) => process_key_and_group kg function chans).
  destruct (dict_comp_raises function g chans [] c e0 Hc Hf) as (e1 & He1).
  assert (Htask : In (Raise e1) (map task gb)).
  { apply in_map_iff. exists (t, g). split; [|exact Htg].
    unfold task, process_key_and_group. rewrite He1. reflexivity. }
  destruct (collect_raises _ _ Htask) as (e & He).
  fold task. rewrite He. simpl. exists e. split; [reflexivity|].
  apply collect_raise_from in He. apply in_map_iff in He.
  destruct He as ([t' g'] & Ht' & Hin).
  unfold task, process_key_and_group in Ht'.
  destruct (dict_comp function g' chans []) as [d|e'] eqn:Ed; simpl in Ht'; [discriminate|].
  inversion Ht'; subst.
  destruct (dict_comp_raise_from _ _ _ _ _ Ed) as (c' & Hc' & Hf').
  exists t', g', c'. auto.
Qed.

Lemma run_model_parallel_raises (ep : Epochs V) (function : list (Row V) -> string -> Result A)
  channels chans n_cores sched dump_task dump_reply t g c e0 :
  validate_LHS (e_table ep)
    (match channels with None => PyList (map PyStr (e_channels ep)) | Some c => c end)
    = Ok chans ->
  1 <= n_cores ->
  Permutation sched (seq 0 (length (groupby_time (t_rows (e_table ep))))) ->
  In (t, g) (groupby_time (t_rows (e_table ep))) -> In c chans -> function g c = Raise e0 ->
  exists e,
    run_model TIME ep function channels (Parallel n_cores sched dump_task dump_reply) = Raise e /\
    ((exists t' g' c', In (t', g') (groupby_time (t_rows (e_table ep))) /\ In c' chans /\
                       function g' c' = Raise e) \/
     exists i, i < length (groupby_time (t_rows (e_table ep))) /\
       (dump_task i = Some e \/
        exists exc_repr value_repr, dump_reply i = Some (exc_repr, value_repr) /\
                                    e = MaybeEncodingError exc_repr value_repr)).
Proof.
  intros Hval Hn Hp Htg Hc Hf. unfold run_model. rewrite Hval. simpl.
  replace (Nat.eqb n_cores 0) with false by (symmetry; apply Nat.eqb_neq; lia).
  set (gb := groupby_time (t_rows (e_table ep))) in *.
  set (task := fun kg : nat * list (Row V) => process_key_and_group kg function chans).
  set (w := pool_worker task dump_task dump_reply).
  rewrite pool_imap_perm by (rewrite length_enumerate; exact Hp).
  rewrite collect_imap_some.
  destruct (dict_comp_raises function g chans [] c e0 Hc Hf) as (e1 & He1).
  destruct (in_enumerate_ex 0 gb _ Htg) as (i0 & Hi0).
  assert (Hw : exists e2, In (Raise e2) (map w (combine (seq 0 (length gb)) gb))).
  { destruct (w (i0, (t, g))) as [y|e2] eqn:Ew.
    - apply pool_worker_ok in Ew. unfold task, process_key_and_group in Ew.
      rewrite He1 in Ew. discriminate.
    - exists e2. apply in_map_iff. exists (i0, (t, g)). split; [exact Ew|exact Hi0]. }
  destruct Hw as (e2 & Hw).
  destruct (collect_raises _ _ Hw) as (e & He). rewrite He. simpl.
  exists e. split; [reflexivity|].
  apply collect_raise_from, in_map_iff in He. destruct He as ([i [t' g']] & Hwi & Hin).
  destruct (in_enumerate _ _ _ _ Hin) as [Hi Hkg].
  destruct (pool_worker_raise _ _ _ _ _ _ Hwi) as [Ht|[Hd|Hr]].
  - left. unfold task, process_key_and_group in Ht.
    destruct (dict_comp function g' chans []) as [d|e'] eqn:Ed; simpl in Ht; [discriminate|].
    inversion Ht; subst e'.
    destruct (dict_comp_raise_from _ _ _ _ _ Ed) as (c' & Hc' & Hf').
    exists t', g', c'. auto.
  - right. exists i. split; [lia|left; exact Hd].
  - right. exists i. split; [lia|right; exact Hr].
Qed.

(** The columns of a grid [run_model] returns are the validated channel
    list (when it has no repeats). *)
Lemma run_model_columns (ep : Epochs V) (function : list (Row V) -> string -> Result A)
  channels mode chans grid :
  validate_LHS (e_table ep)
    (match channels with None => PyList (map PyStr (e_channels ep)) | Some c => c end)
    = Ok chans ->
  NoDup chans ->
  run_model TIME ep function channels mode = Ok grid -> g_columns grid = chans.
Proof.
  intros Hval Hnd H. unfold run_model in H. rewrite Hval in H. simpl in H.
  set (gb := groupby_time (t_rows (e_table ep))) in *.
  set (task := fun kg : nat * list (Row V) => process_key_and_group kg function chans) in *.
  assert (Hfirst : forall results,
             concat_T results = concat_T results ->
             (exists s0 rest, results = s0 :: rest /\
                (exists kg, task kg = Ok s0)) ->
             forall x, concat_T results = Ok x -> snd (fst x) = chans).
  { intros results _ (s0 & rest & -> & ([k g0] & Hk)) x Hx.
    unfold concat_T in Hx. inversion Hx; subst. simpl.
    unfold task, process_key_and_group in Hk.
    destruct (dict_comp function g0 chans []) as [d|e] eqn:Ed; simpl in Hk; [|discriminate].
    inversion Hk; subst. simpl. exact (dict_comp_keys function g0 chans [] d Hnd Ed). }
  destruct mode as [|n sched dt dr].
  - destruct (collect (map task gb)) as [results|e] eqn:Hr; simpl in H; [|discriminate].
    destruct (concat_T results) as [[[idx cols] cells]|e] eqn:Hc; simpl in H; [|discriminate].
    inversion H; subst. simpl.
    destruct results as [|s0 rest]; [discriminate|].
    destruct (collect_first _ _ _ _ Hr) as (kg & xs' & _ & Hk).
    exact (Hfirst _ eq_refl (ex_intro _ s0 (ex_intro _ rest (conj eq_refl (ex_intro _ kg Hk))))
             _ Hc).
  - destruct (Nat.eqb n 0); simpl in H; [discriminate|].
    set (w := pool_worker task dt dr) in *.
    destruct (collect_imap (pool_imap w (combine (seq 0 (length gb)) gb) sched))
      as [results|e] eqn:Hr; simpl in H; [|discriminate].
    destruct (concat_T results) as [[[idx cols] cells]|e] eqn:Hc; simpl in H; [|discriminate].
    inversion H; subst. simpl.
    destruct results as [|s0 rest]; [discriminate|].
    apply collect_imap_first in Hr.
    destruct (pool_imap_slot _ _ w _ sched 0 (Ok s0) Hr) as ([i kg] & _ & Hk).
    apply eq_sym, pool_worker_ok in Hk.
    exact (Hfirst _ eq_refl (ex_intro _ s0 (ex_intro _ rest (conj eq_refl (ex_intro _ kg Hk))))
             _ Hc).
Qed.

End RunModelFacts.

Lemma validate_LHS_ok_list {V} (table : Table V) L l :
  validate_LHS table L = Ok l -> as_str_list L = Some l.
Proof.
  unfold validate_LHS. destruct (as_str_list L) as [l'|]; [|discriminate].
  destruct (missing_items l' (t_columns table)); intros H; inversion H; reflexivity.
Qed.

Lemma validate_LHS_iff {V} (table : Table V) L :
  (exists l, validate_LHS table L = Ok l) <->
  exists l, as_str_list L = Some l /\ forall c, In c l -> In c (t_columns table).
Proof.
  unfold validate_LHS. destruct (as_str_list L) as [l|].
  - destruct (missing_items l (t_columns table)) as [|m ms] eqn:E; split.
    + intros _. exists l. split; [reflexivity|]. apply missing_items_nil. exact E.
    + intros _. eauto.
    + intros (x & Hx). discriminate.
    + intros (l' & Hl' & Hin). inversion Hl'; subst.
      apply missing_items_nil in Hin. congruence.
  - split; [intros (x & Hx); discriminate|intros (l & Hl & _); discriminate].
Qed.

Lemma prechecks_inv {V} EPOCH_ID TIME CHANNELS (tbl : Table V) ch chans table :
  prechecks EPOCH_ID TIME CHANNELS tbl ch = Ok (chans, table) ->
  (forall c, In c chans -> In c (t_columns tbl)) /\
  In EPOCH_ID (t_index tbl) /\
  (forall n, In n (t_index tbl) -> ~ In n (t_columns tbl)) /\
  t_columns table = remove string_dec EPOCH_ID (t_index tbl ++ t_columns tbl)%list.
Proof.
  unfold prechecks. intros H.
  match type of H with context [as_str_list ?x] =>
    destruct (as_str_list x) as [l|] eqn:Eas end; [|discriminate].
  destruct (missing_items l (t_columns tbl)) as [|m ms] eqn:Em; [|discriminate].
  destruct (first_missing_key [EPOCH_ID; TIME] (t_index tbl)) as [k|] eqn:Ek; [discriminate|].
  destruct (reset_index tbl) as [t1|e] eqn:Er; simpl in H; [|discriminate].
  destruct (set_index_epoch EPOCH_ID t1) as [t2|e] eqn:Es; simpl in H; [|discriminate].
  inversion H; subst l t2. clear H.
  simpl in Ek. destruct (mem EPOCH_ID (t_index tbl)) eqn:EE; [|discriminate].
  unfold reset_index in Er.
  destruct (filter (fun n => mem n (t_columns tbl)) (t_index tbl)) as [|n ns] eqn:Ef;
    [|discriminate].
  inversion Er; subst t1. clear Er.
  unfold set_index_epoch in Es. simpl in Es.
  destruct (mem EPOCH_ID (t_index tbl ++ t_columns tbl)%list); [|discriminate].
  inversion Es; subst table. clear Es.
  split; [apply missing_items_nil; exact Em|].
  split; [apply mem_In; exact EE|].
  split; [|reflexivity].
  intros n Hn Hc.
  assert (Hin : In n (filter (fun n => mem n (t_columns tbl)) (t_index tbl))).
  { apply filter_In. split; [exact Hn|]. apply mem_In. exact Hc. }
  rewrite Ef in Hin. destruct Hin.
Qed.

(* ------------------------------------------------------------------ *)
(** ** Concrete containers *)

Example ex_ep_constructed :
  construct ex_epoch ex_time [] ex_aligned (PyList [PyStr "A"; PyStr "B"]) = Ok ex_ep.
Proof. vm_compute. reflexivity. Qed.

Example ex_run_model_serial :
  run_model ex_time ex_ep ex_count None Serial
  = Ok (mkGrid [0; 1] ex_time ["A"; "B"] [[Some 2; Some 2]; [Some 2; Some 2]] [1; 2]).
Proof. vm_compute. reflexivity. Qed.

(* ------------------------------------------------------------------ *)
(** ** C2: parallel and serial runs *)




(* ------------------------------------------------------------------ *)
(** ** C3: a failing cell *)

(** C3 (corrected).  If the fitting callable raises at some (time,
    channel) cell, [run_model] (serial, or parallel with [n_cores >= 1]
    once every task has completed) returns no grid: it raises.  What it
    raises is an exception the callable itself raised at some cell,
    unchanged, with no (time, channel) context added, or, in a parallel
    run only, an error of the pool's pickling: the exception raised when
    pickling a task, or a [MaybeEncodingError] for a reply that cannot be
    pickled. *)
Theorem run_model_raises_callable_exception (V A : Type) (TIME : string) (ep : Epochs V)
  (function : list (Row V) -> string -> Result A) (channels : option PyVal)
  (mode : Mode) (chans : list string) (t : nat) (g : list (Row V)) (c : string) (e0 : Exc) :
  validate_LHS (e_table ep)
    (match channels with None => PyList (map PyStr (e_channels ep)) | Some c => c end)
    = Ok chans ->
  completes ep mode ->
  In (t, g) (groupby_time (t_rows (e_table ep))) -> In c chans -> function g c = Raise e0 ->
  exists e, run_model TIME ep function channels mode = Raise e /\
    ((exists t' g' c', In (t', g') (groupby_time (t_rows (e_table ep))) /\ In c' chans /\
                       function g' c' = Raise e) \/
     exists n_cores sched dump_task dump_reply,
       mode = Parallel n_cores sched dump_task dump_reply /\
       exists i, i < length (groupby_time (t_rows (e_table ep))) /\
         (dump_task i = Some e \/
          exists exc_repr value_repr, dump_reply i = Some (exc_repr, value_repr) /\
                                      e = MaybeEncodingError exc_repr value_repr)).
Proof.
  intros Hval Hmode Htg Hc Hf.
  destruct Hmode as [->|(n & sched & dt & dr & -> & Hn & Hp)].
  - destruct (run_model_serial_raises V A TIME ep function channels chans t g c e0 Hval Htg Hc Hf)
      as (e & He & Hfrom).
    exists e. split; [exact He|left; exact Hfrom].
  - destruct (run_model_parallel_raises V A TIME ep function channels chans n sched dt dr
                t g c e0 Hval Hn Hp Htg Hc Hf) as (e & He & Hfrom).
    exists e. split; [exact He|].
    destruct Hfrom as [Hcb|(i & Hi & Hd)]; [left; exact Hcb|right].
    exists n, sched, dt, dr. split; [reflexivity|]. exists i. split; assumption.
Qed.

Lemma run_model_raises_callable_exception_witness :
  exists e, run_model ex_time ex_ep ex_fail None
              (Parallel 4 [1; 0] (fun _ => None) (fun _ => None)) = Raise e.
Proof.
  destruct (run_model_raises_callable_exception nat nat ex_time ex_ep ex_fail None
           (Parallel 4 [1; 0] (fun _ => None) (fun _ => None)) ["A"; "B"] 1
           (time_group (t_rows ex_aligned) 1) "A" ex_singular) as (e & He & _).
  - vm_compute. reflexivity.
  - right. exists 4, [1; 0], (fun _ => None), (fun _ => None).
    split; [reflexivity|split; [lia|]].
    vm_compute. apply perm_swap.
  - vm_compute. right. left. reflexivity.
  - left. reflexivity.
  - vm_compute. reflexivity.
  - exists e. exact He.
Defined.

(** C3, the claim as stated fails: the callable fails at time 1,
    channel "A"; [run_model] raises the callable's exception as it is,
    which carries neither the time nor the channel.  And with a callable
    the pool cannot pickle, the parallel run raises the pickling error,
    which the callable never raises. *)
Lemma run_model_error_without_context_counterexample :
  run_model ex_time ex_ep ex_fail None Serial = Raise ex_singular /\
  run_model ex_time ex_ep ex_fail None (Parallel 2 [0; 1] (fun _ => None) (fun _ => None))
  = Raise ex_singular /\
  ex_fail (time_group (t_rows ex_aligned) 1) "A" = Raise ex_singular /\
  ~ In (ANat 1) (exc_args ex_singular) /\ ~ In (AStr "A") (exc_args ex_singular) /\
  run_model ex_time ex_ep ex_fail None
    (Parallel 2 [0; 1] (fun _ => Some ex_lambda_pickling_error) (fun _ => None))
  = Raise ex_lambda_pickling_error /\
  (forall g c, ex_fail g c <> Raise ex_lambda_pickling_error).
Proof.
  split; [vm_compute; reflexivity|].
  split; [vm_compute; reflexivity|].
  split; [vm_compute; reflexivity|].
  split; [simpl; intros [H|[]]; discriminate|].
  split; [simpl; intros [H|[]]; discriminate|].
  split; [vm_compute; reflexivity|].
  intros g c. unfold ex_fail. destruct g as [|r g]; [discriminate|].
  destruct (Nat.eqb (r_time r) 1); discriminate.
Qed.

(* ------------------------------------------------------------------ *)
(** ** C7: the channel rule of [run_model] and of construction *)

(** C7 (corrected).  [run_model] accepts a channel argument iff it is a
    list of strings all of which are columns of the stored table; the
    stored table's columns are the input's index levels other than
    [EPOCH_ID] followed by the input's columns.  Construction checks the
    same two conditions against the input's columns only, so every list
    construction accepts is accepted by [run_model]. *)
Theorem run_model_channel_rule (V : Type) (EPOCH_ID TIME : string) (CHANNELS : list string)
  (tbl : Table V) (ch : PyVal) (chans : list string) (table : Table V) :
  prechecks EPOCH_ID TIME CHANNELS tbl ch = Ok (chans, table) ->
  t_columns table = remove string_dec EPOCH_ID (t_index tbl ++ t_columns tbl)%list /\
  validate_LHS table (PyList (map PyStr chans)) = Ok chans /\
  (forall L, (exists l, validate_LHS table L = Ok l) <->
             exists l, as_str_list L = Some l /\ forall c, In c l -> In c (t_columns table)).
Proof.
  intros Hpre.
  destruct (prechecks_inv EPOCH_ID TIME CHANNELS tbl ch chans table Hpre)
    as (Hcols & Hep & Hdisj & Htab).
  split; [exact Htab|split; [|intros L; apply validate_LHS_iff]].
  unfold validate_LHS. simpl. rewrite all_str_map.
  replace (missing_items chans (t_columns table)) with (@nil string); [reflexivity|].
  symmetry. apply missing_items_nil. intros c Hc. rewrite Htab.
  apply in_in_remove.
  - intros ->. exact (Hdisj _ Hep (Hcols _ Hc)).
  - apply in_or_app. right. exact (Hcols _ Hc).
Qed.

Lemma run_model_channel_rule_witness :
  validate_LHS (e_table ex_ep) (PyList [PyStr "A"]) = Ok ["A"].
Proof.
  destruct (run_model_channel_rule nat ex_epoch ex_time [] ex_aligned (PyList [PyStr "A"])
              ["A"] (e_table ex_ep) ltac:(vm_compute; reflexivity)) as (_ & H & _).
  exact H.
Defined.

(** C7, the claim as stated fails: [[TIME]] is refused by construction
    (the time key is an index level of the input, not a column) and
    accepted by [run_model] on the container built from the same table. *)
Lemma run_model_accepts_time_key_counterexample :
  construct ex_epoch ex_time [] ex_aligned (PyList [PyStr "A"; PyStr "B"]) = Ok ex_ep /\
  construct ex_epoch ex_time [] ex_aligned (PyList [PyStr ex_time])
  = Raise (mkExc "FitGridError"
             [AStr ("channels should all be present in the epochs table, "
                    ++ "the following are missing: "); AStrs [ex_time]]) /\
  validate_LHS (e_table ex_ep) (PyList [PyStr ex_time]) = Ok [ex_time] /\
  run_model ex_time ex_ep ex_count (Some (PyList [PyStr ex_time])) Serial
  = Ok (mkGrid [0; 1] ex_time [ex_time] [[Some 2]; [Some 2]] [1; 2]).
Proof.
  split; [vm_compute; reflexivity|].
  split; [vm_compute; reflexivity|].
  split; vm_compute; reflexivity.
Qed.

(* ------------------------------------------------------------------ *)
(** ** C10: [lmer] fits the container's channels *)

(** C10 (confirmed).  Whenever [LHS] passes validation, [lmer] runs the
    model with no channel argument, i.e. over the container's own channel
    list, whatever [LHS] was; the grid it returns has the container's
    channels as columns. *)
Theorem lmer_fits_container_channels (V A : Type) (TIME : string)
  (lmer_fit : list (Row V) -> string -> string -> Result A) (ep : Epochs V)
  (LHS : PyVal) (lhs : list string) (rhs : string) (mode : Mode) :
  validate_LHS (e_table ep) LHS = Ok lhs ->
  lmer TIME lmer_fit ep (Some LHS) (PyStr rhs) mode
  = run_model TIME ep (fun data channel => lmer_fit data channel rhs) None mode /\
  (NoDup (e_channels ep) -> forall grid,
     lmer TIME lmer_fit ep (Some LHS) (PyStr rhs) mode = Ok grid ->
     g_columns grid = e_channels ep).
Proof.
  intros Hval.
  assert (Hl : lmer TIME lmer_fit ep (Some LHS) (PyStr rhs) mode
               = run_model TIME ep (fun data channel => lmer_fit data channel rhs) None mode)
    by (unfold lmer; rewrite Hval; reflexivity).
  split; [exact Hl|]. intros Hnd grid Hg. rewrite Hl in Hg.
  destruct (validate_LHS (e_table ep) (PyList (map PyStr (e_channels ep)))) as [l|e] eqn:Ev.
  - assert (El : l = e_channels ep).
    { apply validate_LHS_ok_list in Ev. simpl in Ev. rewrite all_str_map in Ev.
      inversion Ev; reflexivity. }
    subst l.
    exact (run_model_columns V A TIME ep _ None mode (e_channels ep) grid Ev Hnd Hg).
  - unfold run_model in Hg. rewrite Ev in Hg. discriminate.
Qed.

Lemma lmer_fits_container_channels_witness :
  validate_LHS (e_table ex_ep) (PyList [PyStr "A"]) = Ok ["A"] /\
  match lmer ex_time ex_lmer ex_ep (Some (PyList [PyStr "A"])) (PyStr "1 + x") Serial with
  | Ok grid => g_columns grid = ["A"; "B"]
  | Raise _ => False
  end.
Proof.
  split; [vm_compute; reflexivity|].
  destruct (lmer_fits_container_channels nat nat ex_time ex_lmer ex_ep (PyList [PyStr "A"])
              ["A"] "1 + x" Serial ltac:(vm_compute; reflexivity)) as [_ Hcols].
  destruct (lmer ex_time ex_lmer ex_ep (Some (PyList [PyStr "A"])) (PyStr "1 + x") Serial)
    as [grid|e] eqn:E.
  - apply (Hcols ltac:(repeat constructor; simpl; intuition discriminate) grid eq_refl).
  - vm_compute in E. discriminate.
Defined.

(* ------------------------------------------------------------------ *)
(** ** C6: where construction looks for the keys *)

(** C6 (corrected).  Construction only looks for the keys among the index
    levels and never promotes columns: once the channel list is a list of
    strings present among the columns, a missing [EPOCH_ID] index level
    raises a [FitGridError] naming [EPOCH_ID], and otherwise a missing
    [TIME] level one naming [TIME], whatever the rows (so before any
    partitioning) and whether or not the key is a plain column. *)
Theorem construct_requires_index_keys (V : Type) (EPOCH_ID TIME : string)
  (CHANNELS : list string) (tbl : Table V) (ch : PyVal) (chans : list string) :
  as_str_list ch = Some chans ->
  (forall c, In c chans -> In c (t_columns tbl)) ->
  (~ In EPOCH_ID (t_index tbl) ->
   construct EPOCH_ID TIME CHANNELS tbl ch
   = Raise (FitGridError (EPOCH_ID ++ " must be a column in the epochs table index."))) /\
  (In EPOCH_ID (t_index tbl) -> ~ In TIME (t_index tbl) ->
   construct EPOCH_ID TIME CHANNELS tbl ch
   = Raise (FitGridError (TIME ++ " must be a column in the epochs table index."))).
Proof.
  intros Hl Hcols.
  assert (Hm : missing_items chans (t_columns tbl) = []) by (apply missing_items_nil; exact Hcols).
  destruct ch as [s|n| |l]; try discriminate.
  assert (Hmem : forall k, ~ In k (t_index tbl) -> mem k (t_index tbl) = false).
  { intros k Hk. destruct (mem k (t_index tbl)) eqn:E; [|reflexivity].
    exfalso. apply Hk. apply mem_In. exact E. }
  unfold construct, prechecks. cbn iota beta. rewrite Hl, Hm. simpl first_missing_key.
  split.
  - intros He. rewrite (Hmem _ He). reflexivity.
  - intros He Ht. rewrite (proj2 (mem_In _ _) He), (Hmem _ Ht). reflexivity.
Qed.

Lemma construct_requires_index_keys_witness :
  construct ex_epoch ex_time [] ex_cols (PyList [PyStr "A"])
  = Raise (FitGridError (ex_epoch ++ " must be a column in the epochs table index.")).
Proof.
  destruct (construct_requires_index_keys nat ex_epoch ex_time [] ex_cols (PyList [PyStr "A"])
              ["A"] eq_refl) as [H _].
  - intros c [<-|[]]. simpl. tauto.
  - apply H. simpl. intros [].
Defined.

(** C6, the claim as stated fails: with both keys as plain columns (the
    table [ex_aligned] has them as index levels) construction raises
    instead of promoting them. *)
Lemma construct_does_not_promote_counterexample :
  construct ex_epoch ex_time [] ex_cols (PyList [PyStr "A"])
  = Raise (FitGridError "epoch_id must be a column in the epochs table index.") /\
  exists ep, construct ex_epoch ex_time [] ex_aligned (PyList [PyStr "A"]) = Ok ep.
Proof.
  split; [vm_compute; reflexivity|]. eexists. vm_compute. reflexivity.
Qed.

(* ------------------------------------------------------------------ *)
(** ** C8: the container's own copy *)

Lemma epochs_view_write {V} (h : Heap V) o l t :
  o_table o <> l -> epochs_view (heap_write h l t) o = epochs_view h o.
Proof.
  intros Hne. unfold epochs_view, heap_write. simpl.
  replace (Nat.eqb (o_table o) l) with false by (symmetry; apply Nat.eqb_neq; exact Hne).
  reflexivity.
Qed.

Lemma epochs_view_writes {V} (h : Heap V) o l ts :
  o_table o <> l ->
  epochs_view (fold_left (fun hh t => heap_write hh l t) ts h) o = epochs_view h o.
Proof.
  revert h; induction ts as [|t ts IH]; intros h Hne; simpl; [reflexivity|].
  rewrite IH by exact Hne. apply epochs_view_write. exact Hne.
Qed.

(** C8 (confirmed).  On a well-formed heap, a successful construction
    from the table at [loc] stores its table in a new object, distinct
    from [loc]; it leaves the object at [loc] as it was; and whatever the
    caller later writes into the object at [loc], the container's view
    and the result of any later [run_model] call are unchanged. *)
Theorem construct_obj_owns_copy (V : Type) (EPOCH_ID TIME : string) (CHANNELS : list string)
  (h : Heap V) (loc : nat) (ch : PyVal) (h' : Heap V) (o : EpochsObj) :
  heap_wf h ->
  construct_obj EPOCH_ID TIME CHANNELS h loc ch = Ok (h', o) ->
  o_table o <> loc /\
  h_tables h' loc = h_tables h loc /\
  heap_wf h' /\
  (forall ts : list (Table V),
     epochs_view (fold_left (fun hh t => heap_write hh loc t) ts h') o = epochs_view h' o) /\
  (forall (A : Type) (function : list (Row V) -> string -> Result A) channels mode
          (ts : list (Table V)),
     run_model_obj TIME (fold_left (fun hh t => heap_write hh loc t) ts h') o function
       channels mode
     = run_model_obj TIME h' o function channels mode).
Proof.
  intros Hwf H. unfold construct_obj in H.
  destruct (h_tables h loc) as [tbl|] eqn:El; [|discriminate].
  destruct (construct EPOCH_ID TIME CHANNELS tbl ch) as [ep|e]; simpl in H; [|discriminate].
  inversion H; subst h' o. clear H. simpl.
  assert (Hlt : loc < h_next h).
  { destruct (Nat.lt_ge_cases loc (h_next h)) as [Hl|Hge]; [exact Hl|].
    rewrite (Hwf _ Hge) in El. discriminate. }
  assert (Hne : h_next h <> loc) by lia.
  split; [exact Hne|].
  split; [replace (Nat.eqb loc (h_next h)) with false by (symmetry; apply Nat.eqb_neq; lia);
          first [exact El | reflexivity]|].
  split.
  - intros l Hl. simpl in Hl. simpl.
    replace (Nat.eqb l (h_next h)) with false by (symmetry; apply Nat.eqb_neq; lia).
    apply Hwf. lia.
  - split.
    + intros ts. apply epochs_view_writes. exact Hne.
    + intros A function channels mode ts. unfold run_model_obj.
      rewrite epochs_view_writes by exact Hne. reflexivity.
Qed.

Lemma construct_obj_owns_copy_witness :
  exists h' o,
    construct_obj ex_epoch ex_time [] ex_heap 0 (PyList [PyStr "A"; PyStr "B"]) = Ok (h', o) /\
    o_table o <> 0.
Proof.
  destruct (construct_obj ex_epoch ex_time [] ex_heap 0 (PyList [PyStr "A"; PyStr "B"]))
    as [[h' o]|e] eqn:E.
  - exists h', o. split; [reflexivity|].
    apply (construct_obj_owns_copy nat ex_epoch ex_time [] ex_heap 0
             (PyList [PyStr "A"; PyStr "B"]) h' o).
    + intros l Hl. simpl in Hl. destruct l as [|l]; [lia|reflexivity].
    + exact E.
  - vm_compute in E. discriminate.
Defined.

(* ------------------------------------------------------------------ *)
(** ** C9: [load_grid] *)

(** C9 (confirmed).  [load_grid] takes only the file; for a grid with a
    cell at row 0, column 0, it returns the stored grid, trial ids and
    time name, and its kind is chosen from that one cell: a least-squares
    grid for a [RegressionResults] or [RegressionResultsWrapper] instance,
    else a mixed-effects grid for an [Lmer] instance, else the plain
    [FitGrid]. *)
Theorem load_grid_kind_from_first_cell (grid : list (list PyObj)) (tester : PyObj)
  (row : list PyObj) (rest : list (list PyObj)) (epoch_index : list nat) (time : string) :
  grid = (tester :: row) :: rest ->
  exists lg, load_grid (Some (grid, epoch_index, time)) = Ok lg /\
    lg_grid lg = grid /\ lg_epoch_index lg = epoch_index /\ lg_time lg = time /\
    ((isinstance tester "RegressionResults" = true \/
      isinstance tester "RegressionResultsWrapper" = true) -> lg_kind lg = KLMFitGrid) /\
    (isinstance tester "RegressionResults" = false ->
     isinstance tester "RegressionResultsWrapper" = false ->
     isinstance tester "Lmer" = true -> lg_kind lg = KLMERFitGrid) /\
    (isinstance tester "RegressionResults" = false ->
     isinstance tester "RegressionResultsWrapper" = false ->
     isinstance tester "Lmer" = false -> lg_kind lg = KFitGrid).
Proof.
  intros ->. unfold load_grid.
  destruct (isinstance tester "RegressionResults") eqn:E1;
    destruct (isinstance tester "RegressionResultsWrapper") eqn:E2;
    destruct (isinstance tester "Lmer") eqn:E3; simpl;
    eexists; (split; [reflexivity|]); simpl;
    repeat split; intros; try reflexivity; try discriminate;
    match goal with H : _ \/ _ |- _ => destruct H; discriminate | _ => idtac end.
Qed.

Lemma load_grid_kind_from_first_cell_witness :
  exists lg, load_grid (Some ([[ex_ols_result]], [1; 2], "time")) = Ok lg /\
             lg_kind lg = KLMFitGrid.
Proof.
  destruct (load_grid_kind_from_first_cell [[ex_ols_result]] ex_ols_result [] [] [1; 2] "time"
              eq_refl) as (lg & E & _ & _ & _ & Hlm & _).
  exists lg. split; [exact E|]. apply Hlm. right. reflexivity.
Defined.

(* ------------------------------------------------------------------ *)
(** ** Facts about the distance computation *)































Lemma snapshot_stage_result {V} (chans : list string) (table : Table V) ep :
  snapshot_stage chans table = Ok ep ->
  ep = mkEpochs chans table (first_group_ids (t_rows table)).
Proof.
  unfold snapshot_stage.
  destruct (check_snapshots None (groupby_time (t_rows table))) as [[p|]|e]; simpl;
    try discriminate.
  destruct (is_unique (ids p)); intros H; inversion H; reflexivity.
Qed.

Lemma prechecks_time {V} EPOCH_ID TIME CHANNELS (tbl : Table V) ch chans table :
  prechecks EPOCH_ID TIME CHANNELS tbl ch = Ok (chans, table) -> In TIME (t_index tbl).
Proof.
  unfold prechecks. intros H.
  match type of H with context [as_str_list ?x] =>
    destruct (as_str_list x) as [l|] eqn:Eas end; [|discriminate].
  destruct (missing_items l (t_columns tbl)) as [|m ms]; [|discriminate].
  destruct (first_missing_key [EPOCH_ID; TIME] (t_index tbl)) as [k|] eqn:Ek; [discriminate|].
  simpl in Ek. destruct (mem EPOCH_ID (t_index tbl)); [|discriminate].
  destruct (mem TIME (t_index tbl)) eqn:ET; [|discriminate]. apply mem_In. exact ET.
Qed.



(* ------------------------------------------------------------------ *)
(** ** C4 and C5 on two trials *)

Lemma l2_single (z : R) : l2_norm_channels (l2_norm_samples 1 [[z]]) = Rabs z.
Proof.
  unfold l2_norm_channels, l2_norm_samples, sum_R. simpl.
  rewrite !Rplus_0_r. rewrite sqrt_sqrt by nra.
  rewrite <- sqrt_Rsqr_abs. reflexivity.
Qed.

Lemma ex_pair_constructed (x y : R) :
  construct ex_epoch ex_time [] (ex_pair x y) (PyList [PyStr "A"]) = Ok (ex_pair_ep x y).
Proof. vm_compute. reflexivity. Qed.

Lemma ex_pair_reshaped (x y : R) : reshaped (ex_pair_ep x y) = [[[x]]; [[y]]].
Proof. vm_compute. reflexivity. Qed.

(** On two trials both raw distances are half the gap between them, so
    both are divided by themselves. *)
Lemma distances_pair (x y : R) :
  distances ex_time (ex_pair_ep x y)
  = Ok [(1, np_div (Rabs ((x - y) / 2)) (Rabs ((x - y) / 2)));
        (2, np_div (Rabs ((x - y) / 2)) (Rabs ((x - y) / 2)))].
Proof.
  unfold distances. simpl. rewrite !l2_single.
  replace (x - (x + (y + 0)) / (1 + 1))%R with ((x - y) / 2)%R by field.
  replace (y - (x + (y + 0)) / (1 + 1))%R with (- ((x - y) / 2))%R by field.
  rewrite Rabs_Ropp, Rmax_left by apply Rle_refl. reflexivity.
Qed.

(** C4 (code_bug).  When all trials are identical (two trials reading the
    same value [x] on the one channel), [distances] divides [0] by the
    maximum distance [0]: numpy's [0/0] is [nan], so every trial gets
    [nan], not [0.0]. *)
Theorem distances_identical_trials_nan (x : R) :
  construct ex_epoch ex_time [] (ex_pair x x) (PyList [PyStr "A"]) = Ok (ex_pair_ep x x) /\
  reshaped (ex_pair_ep x x) = [[[x]]; [[x]]] /\
  distances ex_time (ex_pair_ep x x) = Ok [(1, NaN); (2, NaN)].
Proof.
  split; [apply ex_pair_constructed|]. split; [apply ex_pair_reshaped|].
  rewrite distances_pair. replace ((x - x) / 2)%R with 0%R by field.
  rewrite Rabs_R0. unfold np_div. destruct (Req_EM_T 0 0) as [_|E]; [reflexivity|].
  exfalso. apply E. reflexivity.
Qed.



(* ------------------------------------------------------------------ *)
(** ** Facts about the channel dict and the grid [run_model] assembles *)

Lemma dict_get_set_same {A} k (v : A) d : dict_get k (dict_set k v d) = Some v.
Proof.
  induction d as [|[k' v'] d IH]; simpl.
  - rewrite String.eqb_refl. reflexivity.
  - destruct (String.eqb k k') eqn:E; simpl; rewrite ?String.eqb_refl, ?E; [reflexivity|exact IH].
Qed.

Lemma dict_get_set_other {A} k k' (v : A) d :
  k <> k' -> dict_get k (dict_set k' v d) = dict_get k d.
Proof.
  intros Hne. induction d as [|[k'' v'] d IH]; simpl.
  - replace (String.eqb k k') with false by (symmetry; apply String.eqb_neq; exact Hne).
    reflexivity.
  - destruct (String.eqb k' k'') eqn:E; simpl.
    + apply String.eqb_eq in E. subst k''.
      replace (String.eqb k k') with false by (symmetry; apply String.eqb_neq; exact Hne).
      reflexivity.
    + destruct (String.eqb k k''); [reflexivity|exact IH].
Qed.

Lemma dict_set_keys {A} k (v : A) d x :
  In x (map fst (dict_set k v d)) <-> x = k \/ In x (map fst d).
Proof.
  induction d as [|[k' v'] d IH]; simpl; [intuition congruence|].
  destruct (String.eqb k k') eqn:E; simpl.
  - apply String.eqb_eq in E. subst. intuition congruence.
  - rewrite IH. tauto.
Qed.

Lemma dict_set_nodup {A} k (v : A) d :
  NoDup (map fst d) -> NoDup (map fst (dict_set k v d)).
Proof.
  induction d as [|[k' v'] d IH]; simpl; intros Hnd.
  - constructor; [intros []|constructor].
  - inversion Hnd as [|? ? Hk' Hd]; subst.
    destruct (String.eqb k k') eqn:E; simpl.
    + apply String.eqb_eq in E. subst. constructor; assumption.
    + constructor; [|exact (IH Hd)].
      rewrite dict_set_keys. intros [->|H]; [|contradiction].
      rewrite String.eqb_refl in E. discriminate.
Qed.

Lemma dict_comp_get_other {V A} (f : list (Row V) -> string -> Result A) g cs acc d c :
  ~ In c cs -> dict_comp f g cs acc = Ok d -> dict_get c d = dict_get c acc.
Proof.
  revert acc; induction cs as [|c' cs IH]; intros acc Hc H; simpl in H.
  - inversion H; reflexivity.
  - destruct (f g c') as [v|e]; simpl in H; [|discriminate].
    rewrite (IH _ (fun Hin => Hc (or_intror Hin)) H).
    apply dict_get_set_other. intros ->. apply Hc. left. reflexivity.
Qed.

Lemma dict_comp_get {V A} (f : list (Row V) -> string -> Result A) g cs acc d c :
  dict_comp f g cs acc = Ok d -> In c cs -> exists v, dict_get c d = Some v /\ f g c = Ok v.
Proof.
  revert acc; induction cs as [|c' cs IH]; intros acc H Hc; simpl in H; [destruct Hc|].
  destruct (f g c') as [v|e] eqn:Ef; simpl in H; [|discriminate].
  destruct (in_dec string_dec c cs) as [Hin|Hnin]; [exact (IH _ H Hin)|].
  destruct Hc as [<-|Hc]; [|contradiction].
  exists v. split; [|exact Ef].
  rewrite (dict_comp_get_other f g cs _ d c' Hnin H). apply dict_get_set_same.
Qed.

Lemma dict_comp_keys_in {V A} (f : list (Row V) -> string -> Result A) g cs acc d x :
  dict_comp f g cs acc = Ok d -> (In x (map fst d) <-> In x (map fst acc) \/ In x cs).
Proof.
  revert acc; induction cs as [|c cs IH]; intros acc H; simpl in H.
  - inversion H; subst. simpl. tauto.
  - destruct (f g c) as [v|e]; simpl in H; [|discriminate].
    rewrite (IH _ H), dict_set_keys. simpl. intuition congruence.
Qed.

Lemma dict_comp_nodup {V A} (f : list (Row V) -> string -> Result A) g cs acc d :
  NoDup (map fst acc) -> dict_comp f g cs acc = Ok d -> NoDup (map fst d).
Proof.
  revert acc; induction cs as [|c cs IH]; intros acc Hnd H; simpl in H.
  - inversion H; subst. exact Hnd.
  - destruct (f g c) as [v|e]; simpl in H; [|discriminate].
    exact (IH _ (dict_set_nodup c v acc Hnd) H).
Qed.

Lemma collect_ok {X} (l : list (Result X)) xs :
  collect l = Ok xs -> Forall2 (fun r x => r = Ok x) l xs.
Proof.
  revert xs; induction l as [|r l IH]; intros xs H; simpl in H.
  - inversion H. constructor.
  - destruct r as [x|e]; simpl in H; [|discriminate].
    destruct (collect l) as [ys|e] eqn:E; simpl in H; [|discriminate].
    inversion H; subst. constructor; [reflexivity|exact (IH _ eq_refl)].
Qed.

Lemma Forall2_map_l {X Y Z} (f : X -> Z) (P : Z -> Y -> Prop) l1 l2 :
  Forall2 P (map f l1) l2 -> Forall2 (fun x y => P (f x) y) l1 l2.
Proof.
  revert l2; induction l1 as [|x l1 IH]; intros l2 H; inversion H; subst; constructor; auto.
Qed.

Lemma Forall2_nth_l {X Y} (P : X -> Y -> Prop) l1 l2 i a :
  Forall2 P l1 l2 -> nth_error l1 i = Some a -> exists b, nth_error l2 i = Some b /\ P a b.
Proof.
  intros H. revert i; induction H as [|x y l1 l2 Hxy H IH]; intros i Hi.
  - destruct i; discriminate.
  - destruct i as [|i]; simpl in Hi |- *; [inversion Hi; subst; eauto|exact (IH _ Hi)].
Qed.

Lemma Forall2_nth_r {X Y} (P : X -> Y -> Prop) l1 l2 i b :
  Forall2 P l1 l2 -> nth_error l2 i = Some b -> exists a, nth_error l1 i = Some a /\ P a b.
Proof.
  intros H. revert i; induction H as [|x y l1 l2 Hxy H IH]; intros i Hi.
  - destruct i; discriminate.
  - destruct i as [|i]; simpl in Hi |- *; [inversion Hi; subst; eauto|exact (IH _ Hi)].
Qed.

Lemma Forall2_map_names {V A} (f : list (Row V) -> string -> Result A) chans gb results :
  Forall2 (fun kg s => process_key_and_group kg f chans = Ok s) gb results ->
  map (@s_name A) results = map fst gb.
Proof.
  induction 1 as [|[k g] s gb results Hs H IH]; simpl; [reflexivity|].
  unfold process_key_and_group in Hs.
  destruct (dict_comp f g chans []); simpl in Hs; [|discriminate].
  inversion Hs; subst. simpl. rewrite IH. reflexivity.
Qed.

(** A successful serial run, taken apart. *)
Lemma run_model_serial_ok {V A} TIME (ep : Epochs V) (f : list (Row V) -> string -> Result A)
  channels grid :
  run_model TIME ep f channels Serial = Ok grid ->
  exists chans results s0 rest,
    validate_LHS (e_table ep)
      (match channels with None => PyList (map PyStr (e_channels ep)) | Some c => c end)
      = Ok chans /\
    Forall2 (fun kg s => process_key_and_group kg f chans = Ok s)
            (groupby_time (t_rows (e_table ep))) results /\
    results = s0 :: rest /\
    grid = mkGrid (map (@s_name A) results) TIME (map fst (s_items s0))
                  (map (fun s => map (fun c => dict_get c (s_items s)) (map fst (s_items s0)))
                       results)
                  (e_epoch_index ep).
Proof.
  unfold run_model. intros H.
  destruct (validate_LHS (e_table ep) _) as [chans|e] eqn:Hv; simpl in H; [|discriminate].
  destruct (collect _) as [results|e] eqn:Hr; simpl in H; [|discriminate].
  destruct results as [|s0 rest]; simpl in H; [discriminate|].
  inversion H; subst.
  exists chans, (s0 :: rest), s0, rest. split; [reflexivity|]. split; [|split; reflexivity].
  exact (Forall2_map_l _ _ _ _ (collect_ok _ _ Hr)).
Qed.

Lemma series_keys {V A} (f : list (Row V) -> string -> Result A) chans kg s x :
  process_key_and_group kg f chans = Ok s -> (In x (map fst (s_items s)) <-> In x chans).
Proof.
  destruct kg as [k g]. unfold process_key_and_group.
  destruct (dict_comp f g chans []) as [d|e] eqn:Ed; simpl; intros H; [|discriminate].
  inversion H; subst. simpl. rewrite (dict_comp_keys_in f g chans [] d x Ed). simpl. tauto.
Qed.

Lemma series_nodup {V A} (f : list (Row V) -> string -> Result A) chans kg s :
  process_key_and_group kg f chans = Ok s -> NoDup (map fst (s_items s)).
Proof.
  destruct kg as [k g]. unfold process_key_and_group.
  destruct (dict_comp f g chans []) as [d|e] eqn:Ed; simpl; intros H; [|discriminate].
  inversion H; subst. simpl. exact (dict_comp_nodup f g chans [] d (NoDup_nil _) Ed).
Qed.

Lemma series_get {V A} (f : list (Row V) -> string -> Result A) chans k g s c :
  process_key_and_group (k, g) f chans = Ok s -> In c chans ->
  exists v, dict_get c (s_items s) = Some v /\ f g c = Ok v.
Proof.
  unfold process_key_and_group.
  destruct (dict_comp f g chans []) as [d|e] eqn:Ed; simpl; intros H Hc; [|discriminate].
  inversion H; subst. simpl. exact (dict_comp_get f g chans [] d c Ed Hc).
Qed.

Lemma ins_uniq_sorted x l :
  StronglySorted lt l -> StronglySorted lt (ins_uniq x l).
Proof.
  induction 1 as [|a l Hl IH Ha]; simpl.
  - repeat constructor.
  - destruct (Nat.ltb x a) eqn:Hlt.
    + apply Nat.ltb_lt in Hlt. constructor; [constructor; assumption|].
      constructor; [exact Hlt|]. rewrite Forall_forall in Ha |- *.
      intros y Hy. pose proof (Ha y Hy). lia.
    + destruct (Nat.eqb x a) eqn:Heq; [constructor; assumption|].
      apply Nat.ltb_ge in Hlt. apply Nat.eqb_neq in Heq.
      constructor; [exact IH|]. apply Forall_forall. intros y Hy.
      apply In_ins_uniq in Hy. destruct Hy as [->|Hy]; [lia|].
      rewrite Forall_forall in Ha. exact (Ha y Hy).
Qed.

Lemma times_sorted {V} (rows : list (Row V)) : StronglySorted lt (times rows).
Proof.
  induction rows as [|r rows IH]; simpl; [constructor|]. apply ins_uniq_sorted. exact IH.
Qed.

Lemma groupby_time_keys {V} (rows : list (Row V)) :
  map fst (groupby_time rows) = times rows.
Proof. unfold groupby_time. rewrite map_map. apply map_id. Qed.

Lemma run_model_completes {V A} TIME (ep : Epochs V) (f : list (Row V) -> string -> Result A)
  channels mode grid :
  completes ep mode -> run_model TIME ep f channels mode = Ok grid ->
  run_model TIME ep f channels Serial = Ok grid.
Proof.
  intros [->|(n & sched & dt & dr & -> & Hn & Hp)]; [exact (fun H => H)|].
  exact (run_model_parallel_ok V A TIME ep f channels n sched dt dr grid Hn Hp).
Qed.

Lemma series_name {V A} (f : list (Row V) -> string -> Result A) chans k g s :
  process_key_and_group (k, g) f chans = Ok s -> s_name s = k.
Proof.
  unfold process_key_and_group.
  destruct (dict_comp f g chans []); simpl; intros H; [|discriminate].
  inversion H; reflexivity.
Qed.

Ltac completes_pool :=
  right; do 4 eexists; split; [reflexivity|split; [lia|vm_compute]].

Lemma run_model_layout_ok (V A : Type) (TIME : string) (ep : Epochs V)
  (f : list (Row V) -> string -> Result A) (channels : option PyVal) (mode : Mode)
  (grid : Grid A) :
  completes ep mode ->
  run_model TIME ep f channels mode = Ok grid ->
  StronglySorted lt (g_index grid) /\
  (forall t, In t (g_index grid) <-> exists r, In r (t_rows (e_table ep)) /\ r_time r = t) /\
  g_index_name grid = TIME /\ g_epoch_index grid = e_epoch_index ep /\
  exists chans,
    validate_LHS (e_table ep)
      (match channels with None => PyList (map PyStr (e_channels ep)) | Some c => c end)
      = Ok chans /\
    NoDup (g_columns grid) /\ (forall c, In c (g_columns grid) <-> In c chans).
Proof.
  intros Hm H. apply (run_model_completes TIME ep f channels mode grid Hm) in H.
  destruct (run_model_serial_ok TIME ep f channels grid H)
    as (chans & results & s0 & rest & Hv & Hf & -> & ->).
  cbn [g_index g_index_name g_epoch_index g_columns].
  rewrite (Forall2_map_names f chans _ _ Hf), groupby_time_keys.
  split; [apply times_sorted|]. split; [intro t; apply In_times|].
  split; [reflexivity|]. split; [reflexivity|].
  exists chans. split; [exact Hv|].
  inversion Hf as [|kg s gb' rs Hs0 Hrest E1 E2]; subst.
  split; [exact (series_nodup f chans kg s0 Hs0)|].
  intro c. exact (series_keys f chans kg s0 c Hs0).
Qed.

Lemma run_model_cells_ok (V A : Type) (TIME : string) (ep : Epochs V)
  (f : list (Row V) -> string -> Result A) (channels : option PyVal) (mode : Mode)
  (grid : Grid A) :
  completes ep mode ->
  run_model TIME ep f channels mode = Ok grid ->
  length (g_cells grid) = length (g_index grid) /\
  forall i t row,
    nth_error (g_index grid) i = Some t -> nth_error (g_cells grid) i = Some row ->
    length row = length (g_columns grid) /\
    forall j c, nth_error (g_columns grid) j = Some c ->
      exists v, nth_error row j = Some (Some v) /\
                f (time_group (t_rows (e_table ep)) t) c = Ok v.
Proof.
  intros Hm H. apply (run_model_completes TIME ep f channels mode grid Hm) in H.
  destruct (run_model_serial_ok TIME ep f channels grid H)
    as (chans & results & s0 & rest & Hv & Hf & -> & ->).
  cbn [g_index g_cells g_columns]. split; [rewrite !length_map; reflexivity|].
  intros i t row Hi Hr. rewrite nth_error_map in Hi, Hr.
  destruct (nth_error (s0 :: rest) i) as [s|] eqn:Es; simpl in Hi, Hr; try discriminate.
  inversion Hi; inversion Hr; subst t row; clear Hi Hr.
  split; [rewrite !length_map; reflexivity|].
  intros j c Hj. rewrite nth_error_map, Hj. simpl.
  destruct (Forall2_nth_r _ _ _ _ _ Hf Es) as ([k g] & Hkg & Hs).
  unfold groupby_time in Hkg. rewrite nth_error_map in Hkg.
  destruct (nth_error (times (t_rows (e_table ep))) i); simpl in Hkg; inversion Hkg; subst k g.
  rewrite (series_name f chans _ _ s Hs).
  assert (Hc : In c chans).
  { inversion Hf as [|kg s' gb' rs Hs0 Hrest E1 E2]; subst.
    apply (series_keys f chans kg s0 c Hs0). exact (nth_error_In _ _ Hj). }
  destruct (series_get f chans _ _ s c Hs Hc) as (v & Hget & Hfv).
  exists v. rewrite Hget. split; [reflexivity|exact Hfv].
Qed.

(** X: the shape of a completed run's grid.  Its rows are the distinct time
    keys of the stored table, strictly increasing; the index is named
    [TIME]; the trial-id index is the container's; the columns are the
    validated channels, each once, even if the channel list repeats one. *)
Theorem run_model_grid_layout (V A : Type) (TIME : string) (ep : Epochs V)
  (f : list (Row V) -> string -> Result A) (channels : option PyVal) (mode : Mode)
  (grid : Grid A) :
  completes ep mode ->
  run_model TIME ep f channels mode = Ok grid ->
  StronglySorted lt (g_index grid) /\
  (forall t, In t (g_index grid) <-> exists r, In r (t_rows (e_table ep)) /\ r_time r = t) /\
  g_index_name grid = TIME /\ g_epoch_index grid = e_epoch_index ep /\
  exists chans,
    validate_LHS (e_table ep)
      (match channels with None => PyList (map PyStr (e_channels ep)) | Some c => c end)
      = Ok chans /\
    NoDup (g_columns grid) /\ (forall c, In c (g_columns grid) <-> In c chans).
Proof. exact (run_model_layout_ok V A TIME ep f channels mode grid). Qed.

Lemma run_model_grid_layout_witness :
  completes ex_ep (Parallel 2 [1; 0] (fun _ => None) (fun _ => None)) /\
  match run_model ex_time ex_ep ex_count (Some (PyList [PyStr "B"; PyStr "A"; PyStr "B"]))
          (Parallel 2 [1; 0] (fun _ => None) (fun _ => None)) with
  | Ok grid =>
      StronglySorted lt (g_index grid) /\
      (forall t, In t (g_index grid) <-> exists r, In r (t_rows (e_table ex_ep)) /\ r_time r = t) /\
      g_index_name grid = ex_time /\ g_epoch_index grid = e_epoch_index ex_ep /\
      exists chans,
        validate_LHS (e_table ex_ep) (PyList [PyStr "B"; PyStr "A"; PyStr "B"]) = Ok chans /\
        NoDup (g_columns grid) /\ (forall c, In c (g_columns grid) <-> In c chans)
  | Raise _ => False
  end.
Proof.
  assert (Hm : completes ex_ep (Parallel 2 [1; 0] (fun _ => None) (fun _ => None))) by (completes_pool; apply perm_swap).
  split; [exact Hm|].
  destruct (run_model ex_time ex_ep ex_count (Some (PyList [PyStr "B"; PyStr "A"; PyStr "B"]))
              (Parallel 2 [1; 0] (fun _ => None) (fun _ => None))) as [grid|e] eqn:E.
  - exact (run_model_grid_layout nat nat ex_time ex_ep ex_count _ _ grid Hm E).
  - vm_compute in E. discriminate.
Defined.

(** X: every cell of a completed run's grid is filled: the cell at the
    row of time key [t] and the column of channel [c] holds the value the
    callable returned on the rows of [t] (in table order) and [c]. *)
Theorem run_model_grid_cells (V A : Type) (TIME : string) (ep : Epochs V)
  (f : list (Row V) -> string -> Result A) (channels : option PyVal) (mode : Mode)
  (grid : Grid A) :
  completes ep mode ->
  run_model TIME ep f channels mode = Ok grid ->
  length (g_cells grid) = length (g_index grid) /\
  forall i t row,
    nth_error (g_index grid) i = Some t -> nth_error (g_cells grid) i = Some row ->
    length row = length (g_columns grid) /\
    forall j c, nth_error (g_columns grid) j = Some c ->
      exists v, nth_error row j = Some (Some v) /\
                f (time_group (t_rows (e_table ep)) t) c = Ok v.
Proof. exact (run_model_cells_ok V A TIME ep f channels mode grid). Qed.

Lemma run_model_grid_cells_witness :
  completes ex_ep Serial /\
  match run_model ex_time ex_ep ex_count None Serial with
  | Ok grid =>
      length (g_cells grid) = length (g_index grid) /\
      forall i t row,
        nth_error (g_index grid) i = Some t -> nth_error (g_cells grid) i = Some row ->
        length row = length (g_columns grid) /\
        forall j c, nth_error (g_columns grid) j = Some c ->
          exists v, nth_error row j = Some (Some v) /\
                    ex_count (time_group (t_rows (e_table ex_ep)) t) c = Ok v
  | Raise _ => False
  end.
Proof.
  assert (Hm : completes ex_ep Serial) by (left; reflexivity).
  split; [exact Hm|].
  destruct (run_model ex_time ex_ep ex_count None Serial) as [grid|e] eqn:E.
  - exact (run_model_grid_cells nat nat ex_time ex_ep ex_count None Serial grid Hm E).
  - vm_compute in E. discriminate.
Defined.

(** The columns and cells of a completed run, in one statement. *)
Lemma run_model_fills (V A : Type) (TIME : string) (ep : Epochs V)
  (f : list (Row V) -> string -> Result A) (channels : option PyVal) (mode : Mode)
  (grid : Grid A) :
  completes ep mode ->
  run_model TIME ep f channels mode = Ok grid ->
  exists chans,
    validate_LHS (e_table ep)
      (match channels with None => PyList (map PyStr (e_channels ep)) | Some c => c end)
      = Ok chans /\
    NoDup (g_columns grid) /\ (forall c, In c (g_columns grid) <-> In c chans) /\
    forall i t row j c,
      nth_error (g_index grid) i = Some t -> nth_error (g_cells grid) i = Some row ->
      nth_error (g_columns grid) j = Some c ->
      exists v, nth_error row j = Some (Some v) /\
                f (time_group (t_rows (e_table ep)) t) c = Ok v.
Proof.
  intros Hm H.
  destruct (run_model_layout_ok V A TIME ep f channels mode grid Hm H)
    as (_ & _ & _ & _ & chans & Hv & Hnd & Hcols).
  destruct (run_model_cells_ok V A TIME ep f channels mode grid Hm H) as [_ Hcells].
  exists chans. split; [exact Hv|]. split; [exact Hnd|]. split; [exact Hcols|].
  intros i t row j c Hi Hr Hj. exact (proj2 (Hcells i t row Hi Hr) j c Hj).
Qed.

Lemma lm_unfold (V A : Type) (TIME : string) (ols_fit : list (Row V) -> string -> string -> Result A)
  (ep : Epochs V) (LHS : option PyVal) (RHS : PyVal) (mode : Mode) :
  lm TIME ols_fit ep LHS RHS mode =
  (_ <- validate_LHS (e_table ep)
          (match LHS with None => PyList (map PyStr (e_channels ep)) | Some l => l end) ;;
   rhs <- validate_RHS RHS ;;
   run_model TIME ep (fun data channel => ols_fit data channel rhs)
     (Some (match LHS with None => PyList (map PyStr (e_channels ep)) | Some l => l end)) mode).
Proof. reflexivity. Qed.

Lemma mlm_unfold (V A : Type) (TIME : string)
  (mixedlm : string -> list (Row V) -> PyVal -> PyVal -> PyVal -> Result A)
  (ep : Epochs V) (LHS : option PyVal) (RHS re_formula vc_formula groups : PyVal) :
  mlm TIME mixedlm ep LHS RHS re_formula vc_formula groups =
  (_ <- validate_LHS (e_table ep)
          (match LHS with None => PyList (map PyStr (e_channels ep)) | Some l => l end) ;;
   rhs <- validate_RHS RHS ;;
   run_model TIME ep
     (fun data channel => mixedlm (channel ++ " ~ " ++ rhs) data re_formula vc_formula groups)
     (Some (match LHS with None => PyList (map PyStr (e_channels ep)) | Some l => l end)) Serial).
Proof. reflexivity. Qed.

Lemma validate_RHS_ok r s : validate_RHS r = Ok s -> r = PyStr s.
Proof. destruct r; simpl; intros H; inversion H; reflexivity. Qed.

(** X: what [lm] returns.  A grid comes back only for a string [RHS]; its
    columns are the validated [LHS] channels, each once, and the cell at
    time key [t] and channel [c] is the OLS fit of formula [c ~ RHS] on the
    rows of [t]. *)
Theorem lm_grid (V A : Type) (TIME : string)
  (ols_fit : list (Row V) -> string -> string -> Result A) (ep : Epochs V)
  (LHS : option PyVal) (RHS : PyVal) (mode : Mode) (grid : Grid A) :
  completes ep mode ->
  lm TIME ols_fit ep LHS RHS mode = Ok grid ->
  exists rhs chans, RHS = PyStr rhs /\
    validate_LHS (e_table ep)
      (match LHS with None => PyList (map PyStr (e_channels ep)) | Some l => l end) = Ok chans /\
    NoDup (g_columns grid) /\ (forall c, In c (g_columns grid) <-> In c chans) /\
    forall i t row j c,
      nth_error (g_index grid) i = Some t -> nth_error (g_cells grid) i = Some row ->
      nth_error (g_columns grid) j = Some c ->
      exists v, nth_error row j = Some (Some v) /\
                ols_fit (time_group (t_rows (e_table ep)) t) c rhs = Ok v.
Proof.
  intros Hm H. rewrite lm_unfold in H.
  destruct (validate_LHS (e_table ep) _) as [l|e] in H; simpl in H; [|discriminate].
  destruct (validate_RHS RHS) as [rhs|e] eqn:Hr; simpl in H; [|discriminate].
  exists rhs. rewrite (validate_RHS_ok _ _ Hr).
  destruct (run_model_fills _ _ _ _ _ _ _ _ Hm H) as (chans & Hv & Hnd & Hcols & Hcells).
  exists chans. split; [reflexivity|]. split; [exact Hv|]. split; [exact Hnd|].
  split; [exact Hcols|]. exact Hcells.
Qed.

Lemma lm_grid_witness :
  completes ex_ep Serial /\
  match lm ex_time ex_lmer ex_ep (Some (PyList [PyStr "A"])) (PyStr "1") Serial with
  | Ok grid =>
      exists rhs chans, PyStr "1" = PyStr rhs /\
        validate_LHS (e_table ex_ep) (PyList [PyStr "A"]) = Ok chans /\
        NoDup (g_columns grid) /\ (forall c, In c (g_columns grid) <-> In c chans) /\
        forall i t row j c,
          nth_error (g_index grid) i = Some t -> nth_error (g_cells grid) i = Some row ->
          nth_error (g_columns grid) j = Some c ->
          exists v, nth_error row j = Some (Some v) /\
                    ex_lmer (time_group (t_rows (e_table ex_ep)) t) c rhs = Ok v
  | Raise _ => False
  end.
Proof.
  assert (Hm : completes ex_ep Serial) by (left; reflexivity).
  split; [exact Hm|].
  destruct (lm ex_time ex_lmer ex_ep (Some (PyList [PyStr "A"])) (PyStr "1") Serial)
    as [grid|e] eqn:E.
  - exact (lm_grid nat nat ex_time ex_lmer ex_ep _ _ Serial grid Hm E).
  - vm_compute in E. discriminate.
Defined.

(** X: what [mlm] returns.  A grid comes back only for a string [RHS]; its
    columns are the validated [LHS] channels, each once (not the
    container's channels, unlike [lmer]), and the cell at time key [t] and
    channel [c] is the model object [mixedlm] built from formula [c ~ RHS],
    the rows of [t] and the other arguments passed through unchanged; no
    fit is made on it.  The run is always serial. *)
Theorem mlm_grid (V A : Type) (TIME : string)
  (mixedlm : string -> list (Row V) -> PyVal -> PyVal -> PyVal -> Result A)
  (ep : Epochs V) (LHS : option PyVal) (RHS re_formula vc_formula groups : PyVal)
  (grid : Grid A) :
  mlm TIME mixedlm ep LHS RHS re_formula vc_formula groups = Ok grid ->
  exists rhs chans, RHS = PyStr rhs /\
    validate_LHS (e_table ep)
      (match LHS with None => PyList (map PyStr (e_channels ep)) | Some l => l end) = Ok chans /\
    NoDup (g_columns grid) /\ (forall c, In c (g_columns grid) <-> In c chans) /\
    forall i t row j c,
      nth_error (g_index grid) i = Some t -> nth_error (g_cells grid) i = Some row ->
      nth_error (g_columns grid) j = Some c ->
      exists v, nth_error row j = Some (Some v) /\
        mixedlm (c ++ " ~ " ++ rhs) (time_group (t_rows (e_table ep)) t)
                re_formula vc_formula groups = Ok v.
Proof.
  intros H. rewrite mlm_unfold in H.
  destruct (validate_LHS (e_table ep) _) as [l|e] in H; simpl in H; [|discriminate].
  destruct (validate_RHS RHS) as [rhs|e] eqn:Hr; simpl in H; [|discriminate].
  exists rhs. rewrite (validate_RHS_ok _ _ Hr).
  assert (Hm : completes ep Serial) by (left; reflexivity).
  destruct (run_model_fills _ _ _ _ _ _ _ _ Hm H) as (chans & Hv & Hnd & Hcols & Hcells).
  exists chans. split; [reflexivity|]. split; [exact Hv|]. split; [exact Hnd|].
  split; [exact Hcols|]. exact Hcells.
Qed.

Lemma mlm_grid_witness :
  match mlm ex_time ex_mixedlm ex_ep (Some (PyList [PyStr "A"])) (PyStr "1") PyNone PyNone
          (PyStr ex_epoch) with
  | Ok grid =>
      exists rhs chans, PyStr "1" = PyStr rhs /\
        validate_LHS (e_table ex_ep) (PyList [PyStr "A"]) = Ok chans /\
        NoDup (g_columns grid) /\ (forall c, In c (g_columns grid) <-> In c chans) /\
        forall i t row j c,
          nth_error (g_index grid) i = Some t -> nth_error (g_cells grid) i = Some row ->
          nth_error (g_columns grid) j = Some c ->
          exists v, nth_error row j = Some (Some v) /\
            ex_mixedlm (c ++ " ~ " ++ rhs) (time_group (t_rows (e_table ex_ep)) t)
                       PyNone PyNone (PyStr ex_epoch) = Ok v
  | Raise _ => False
  end.
Proof.
  destruct (mlm ex_time ex_mixedlm ex_ep (Some (PyList [PyStr "A"])) (PyStr "1") PyNone PyNone
              (PyStr ex_epoch)) as [grid|e] eqn:E.
  - exact (mlm_grid nat nat ex_time ex_mixedlm ex_ep _ _ _ _ _ grid E).
  - vm_compute in E. discriminate.
Defined.

(** X: [lm] and [mlm] check [LHS] before [RHS]: an invalid [LHS] raises
    the [LHS] error whatever [RHS] is, even [None]; with a valid [LHS],
    the [RHS] error is raised ([None]: "Specify the RHS argument.", any
    other non-string: "RHS has to be a string."), and no model is fitted
    or built in either case. *)
Theorem lm_mlm_check_order (V A : Type) (TIME : string)
  (ols_fit : list (Row V) -> string -> string -> Result A)
  (mixedlm : string -> list (Row V) -> PyVal -> PyVal -> PyVal -> Result A)
  (ep : Epochs V) (LHS : option PyVal) (RHS re_formula vc_formula groups : PyVal)
  (mode : Mode) :
  (forall e, validate_LHS (e_table ep)
               (match LHS with None => PyList (map PyStr (e_channels ep)) | Some l => l end)
             = Raise e ->
   lm TIME ols_fit ep LHS RHS mode = Raise e /\
   mlm TIME mixedlm ep LHS RHS re_formula vc_formula groups = Raise e) /\
  (forall chans, validate_LHS (e_table ep)
               (match LHS with None => PyList (map PyStr (e_channels ep)) | Some l => l end)
             = Ok chans ->
   (RHS = PyNone ->
    lm TIME ols_fit ep LHS RHS mode = Raise (FitGridError "Specify the RHS argument.") /\
    mlm TIME mixedlm ep LHS RHS re_formula vc_formula groups
    = Raise (FitGridError "Specify the RHS argument.")) /\
   (forall n, RHS = PyInt n \/ (exists l, RHS = PyList l) ->
    lm TIME ols_fit ep LHS RHS mode = Raise (FitGridError "RHS has to be a string.") /\
    mlm TIME mixedlm ep LHS RHS re_formula vc_formula groups
    = Raise (FitGridError "RHS has to be a string."))).
Proof.
  rewrite lm_unfold, mlm_unfold. split.
  - intros e He. rewrite He. split; reflexivity.
  - intros chans Hv. rewrite Hv. simpl. split.
    + intros ->. split; reflexivity.
    + intros n [->|[l ->]]; split; reflexivity.
Qed.

Lemma lm_mlm_check_order_witness :
  (exists e,
     validate_LHS (e_table ex_ep) (PyList [PyStr "C"]) = Raise e /\
     lm ex_time ex_lmer ex_ep (Some (PyList [PyStr "C"])) PyNone Serial = Raise e /\
     mlm ex_time ex_mixedlm ex_ep (Some (PyList [PyStr "C"])) PyNone PyNone PyNone PyNone
     = Raise e) /\
  validate_LHS (e_table ex_ep) (PyList [PyStr "A"]) = Ok ["A"] /\
  lm ex_time ex_lmer ex_ep (Some (PyList [PyStr "A"])) (PyInt 1) Serial
  = Raise (FitGridError "RHS has to be a string.").
Proof.
  split.
  - eexists. split; [reflexivity|].
    refine (proj1 (lm_mlm_check_order nat nat ex_time ex_lmer ex_mixedlm ex_ep
                     (Some (PyList [PyStr "C"])) PyNone PyNone PyNone PyNone Serial) _ _).
    reflexivity.
  - split; [vm_compute; reflexivity|].
    exact (proj1 (proj2 (proj2 (lm_mlm_check_order nat nat ex_time ex_lmer ex_mixedlm ex_ep
                     (Some (PyList [PyStr "A"])) (PyInt 1) PyNone PyNone PyNone Serial)
                     ["A"] ltac:(vm_compute; reflexivity)) 1 (or_introl eq_refl))).
Defined.

(** X: [lmer] checks [RHS] before [LHS], the other way round from [lm]:
    a non-string [RHS] (including [None]) raises [ValueError] whatever
    [LHS] is, even an invalid one; only with a string [RHS] does an invalid
    [LHS] raise its own error. *)
Theorem lmer_checks_rhs_first (V A : Type) (TIME : string)
  (lmer_fit : list (Row V) -> string -> string -> Result A) (ep : Epochs V)
  (LHS : option PyVal) (RHS : PyVal) (mode : Mode) :
  ((forall s, RHS <> PyStr s) ->
   lmer TIME lmer_fit ep LHS RHS mode
   = Raise (mkExc "ValueError" [AStr "Please enter a valid lmer RHS as a string."])) /\
  (forall rhs e, RHS = PyStr rhs ->
   validate_LHS (e_table ep)
     (match LHS with None => PyList (map PyStr (e_channels ep)) | Some l => l end) = Raise e ->
   lmer TIME lmer_fit ep LHS RHS mode = Raise e).
Proof.
  split.
  - intros Hs. unfold lmer. destruct RHS as [s| | |]; try reflexivity.
    exfalso. exact (Hs s eq_refl).
  - intros rhs e -> He. unfold lmer. rewrite He. reflexivity.
Qed.

Lemma lmer_checks_rhs_first_witness :
  lmer ex_time ex_lmer ex_ep (Some (PyList [PyStr "C"])) PyNone Serial
  = Raise (mkExc "ValueError" [AStr "Please enter a valid lmer RHS as a string."]) /\
  exists e,
    validate_LHS (e_table ex_ep) (PyList [PyStr "C"]) = Raise e /\
    lmer ex_time ex_lmer ex_ep (Some (PyList [PyStr "C"])) (PyStr "1") Serial = Raise e.
Proof.
  split.
  - apply (proj1 (lmer_checks_rhs_first nat nat ex_time ex_lmer ex_ep
                    (Some (PyList [PyStr "C"])) PyNone Serial)).
    intros s. discriminate.
  - eexists. split; [reflexivity|].
    refine (proj2 (lmer_checks_rhs_first nat nat ex_time ex_lmer ex_ep
                     (Some (PyList [PyStr "C"])) (PyStr "1") Serial) "1" _ eq_refl _).
    reflexivity.
Defined.

(* ------------------------------------------------------------------ *)
(** ** Facts about [fitgrid/_core.py] *)

Lemma check_group_indices_from_cases {V} (prev : option (list (Row V))) gs :
  (check_group_indices_from prev gs = (true, None) /\ exists x, check_snapshots prev gs = Ok x) \/
  (exists idx (cur p : list (Row V)), check_group_indices_from prev gs = (false, Some idx) /\
     check_snapshots prev gs
     = Raise (mkExc "FitGridError" [AStr "Snapshot differs from previous snapshot in index";
                                    ANat idx; ANats (ids cur); ANats (ids p)])).
Proof.
  revert prev. induction gs as [|[idx cur] gs IH]; intros prev; simpl.
  - left. eauto.
  - destruct prev as [p|]; [|exact (IH _)].
    destruct (index_equals (ids p) (ids cur)); [exact (IH _)|].
    right. exists idx, cur, p. split; reflexivity.
Qed.

Lemma check_group_indices_true {V} (gs : list (nat * list (Row V))) x :
  check_group_indices gs = (true, x) -> x = None.
Proof.
  unfold check_group_indices.
  destruct (check_group_indices_from_cases None gs) as [[-> _]|(idx & cur & p & -> & _)];
    congruence.
Qed.

Lemma apply_regression_ok {V A} (reg : list (Row V) -> string -> Result A) gb formula s :
  apply_regression reg gb formula = Ok s ->
  Forall2 (fun kg tv => fst tv = fst kg /\ reg (snd kg) formula = Ok (snd tv)) gb s.
Proof.
  unfold apply_regression. intros H.
  apply collect_ok, Forall2_map_l in H.
  refine (Forall2_impl _ _ H). intros [k g] [t v] Hkg. simpl in Hkg |- *.
  destruct (reg g formula) as [w|e]; simpl in Hkg; inversion Hkg; subst. split; reflexivity.
Qed.

Lemma build_columns_ok {V A} (reg : list (Row V) -> string -> Result A) gb cs RHS acc d :
  build_columns reg gb cs RHS acc = Ok d ->
  (forall x, In x (map fst d) <-> In x (map fst acc) \/ In x cs) /\
  (NoDup (map fst acc) -> NoDup (map fst d)) /\
  (forall c, In c cs -> exists r s, RHS = PyStr r /\ dict_get c d = Some s /\
                                   apply_regression reg gb (c ++ " ~ " ++ r) = Ok s) /\
  (forall c, ~ In c cs -> dict_get c d = dict_get c acc).
Proof.
  revert acc. induction cs as [|c cs IH]; intros acc H; simpl in H.
  - inversion H; subst. split; [intro x; simpl; tauto|].
    split; [tauto|]. split; [intros _ []|reflexivity].
  - destruct RHS as [r| | |]; simpl in H; try discriminate.
    destruct (apply_regression reg gb _) as [s|e] eqn:Es; simpl in H;
      [|discriminate].
    destruct (IH _ H) as (Hk & Hnd & Hget & Hoth). split; [|split; [|split]].
    + intro x. rewrite Hk, dict_set_keys. simpl. intuition congruence.
    + intros Hnd0. exact (Hnd (dict_set_nodup c s acc Hnd0)).
    + intros c' [<-|Hc'].
      * destruct (in_dec string_dec c cs) as [Hin|Hnin]; [exact (Hget c Hin)|].
        exists r, s. split; [reflexivity|]. split; [|exact Es].
        rewrite (Hoth c Hnin). apply dict_get_set_same.
      * exact (Hget c' Hc').
    + intros c' Hc'. rewrite (Hoth c' (fun H' => Hc' (or_intror H'))).
      apply dict_get_set_other. intros ->. apply Hc'. left. reflexivity.
Qed.

(** X: the group-index check of the older builder and the snapshot check
    of [Epochs] agree: on any sequence of groups both pass, or both fail at
    the same group, the first whose [EPOCH_ID] values differ from those of
    the group before it. *)
Theorem check_group_indices_matches_epochs (V : Type) (gs : list (nat * list (Row V))) :
  (check_group_indices gs = (true, None) /\ exists x, check_snapshots None gs = Ok x) \/
  (exists idx (cur p : list (Row V)), check_group_indices gs = (false, Some idx) /\
     check_snapshots None gs
     = Raise (mkExc "FitGridError" [AStr "Snapshot differs from previous snapshot in index";
                                    ANat idx; ANats (ids cur); ANats (ids p)])).
Proof. exact (check_group_indices_from_cases None gs). Qed.

(** X: what [build] returns.  A grid comes back only for a list of strings
    [LHS] and a table indexed by both keys whose groups pass the index
    check (the check [Epochs] makes as well); it has one column per [LHS]
    channel, each once; when [LHS] is not empty [RHS] is a string, and
    column [c] lists the time keys in increasing order, each with the fit
    of formula [c ~ RHS] on that time key's rows. *)
Theorem build_grid (V A : Type) (EPOCH_ID TIME : string)
  (regression : list (Row V) -> string -> Result A) (tbl : Table V) (LHS RHS : PyVal)
  (cols : list (string * list (nat * A))) :
  build EPOCH_ID TIME regression tbl LHS RHS = Ok cols ->
  exists lhs, as_str_list LHS = Some lhs /\
    In TIME (t_index tbl) /\ In EPOCH_ID (t_index tbl) /\
    check_group_indices (groupby_time (t_rows tbl)) = (true, None) /\
    (exists x, check_snapshots None (groupby_time (t_rows tbl)) = Ok x) /\
    NoDup (map fst cols) /\ (forall c, In c (map fst cols) <-> In c lhs) /\
    forall c entries, dict_get c cols = Some entries ->
      exists r, RHS = PyStr r /\
        Forall2 (fun t tv => fst tv = t /\
                   regression (time_group (t_rows tbl) t) (c ++ " ~ " ++ r) = Ok (snd tv))
                (times (t_rows tbl)) entries.
Proof.
  unfold build. intros H.
  destruct (as_str_list LHS) as [lhs|]; [|discriminate].
  destruct (mem TIME (t_index tbl)) eqn:Ht; [|discriminate].
  destruct (mem EPOCH_ID (t_index tbl)) eqn:He; simpl in H; [|discriminate].
  destruct (check_group_indices (groupby_time (t_rows tbl))) as [[|] x] eqn:Hc in H;
    [|destruct x; discriminate].
  rewrite (check_group_indices_true _ _ Hc) in Hc.
  exists lhs. split; [reflexivity|].
  split; [apply mem_In; exact Ht|]. split; [apply mem_In; exact He|].
  split; [exact Hc|]. split.
  { unfold check_group_indices in Hc.
    destruct (check_group_indices_from_cases None (groupby_time (t_rows tbl)))
      as [[_ Hok]|(idx & cur & p & Hf & _)]; [exact Hok|congruence]. }
  destruct (build_columns_ok _ _ _ _ _ _ H) as (Hk & Hnd & Hget & Hoth).
  split; [exact (Hnd (NoDup_nil _))|]. split; [intro c; rewrite Hk; simpl; tauto|].
  intros c entries Hce.
  destruct (in_dec string_dec c lhs) as [Hin|Hnin];
    [|rewrite (Hoth c Hnin) in Hce; discriminate].
  destruct (Hget c Hin) as (r & s & Hr & Hs & Hreg).
  rewrite Hce in Hs. inversion Hs; subst s.
  exists r. split; [exact Hr|].
  apply apply_regression_ok in Hreg. unfold groupby_time in Hreg.
  apply Forall2_map_l in Hreg. exact Hreg.
Qed.

Lemma build_grid_witness :
  match build ex_epoch ex_time ex_count ex_aligned (PyList [PyStr "A"; PyStr "B"]) (PyStr "1")
  with
  | Ok cols =>
      exists lhs, as_str_list (PyList [PyStr "A"; PyStr "B"]) = Some lhs /\
        In ex_time (t_index ex_aligned) /\ In ex_epoch (t_index ex_aligned) /\
        check_group_indices (groupby_time (t_rows ex_aligned)) = (true, None) /\
        (exists x, check_snapshots None (groupby_time (t_rows ex_aligned)) = Ok x) /\
        NoDup (map fst cols) /\ (forall c, In c (map fst cols) <-> In c lhs) /\
        forall c entries, dict_get c cols = Some entries ->
          exists r, PyStr "1" = PyStr r /\
            Forall2 (fun t tv => fst tv = t /\
                       ex_count (time_group (t_rows ex_aligned) t) (c ++ " ~ " ++ r) = Ok (snd tv))
                    (times (t_rows ex_aligned)) entries
  | Raise _ => False
  end.
Proof.
  destruct (build ex_epoch ex_time ex_count ex_aligned (PyList [PyStr "A"; PyStr "B"]) (PyStr "1"))
    as [cols|e] eqn:E.
  - exact (build_grid nat nat ex_epoch ex_time ex_count ex_aligned _ _ cols E).
  - vm_compute in E. discriminate.
Defined.

(* ------------------------------------------------------------------ *)
(** ** The container's table, [epochs_from_hdf], and identical trials *)

Lemma prechecks_channels {V} EPOCH_ID TIME CHANNELS (tbl : Table V) ch chans table :
  prechecks EPOCH_ID TIME CHANNELS tbl ch = Ok (chans, table) ->
  prechecks EPOCH_ID TIME CHANNELS tbl (PyList (map PyStr chans)) = Ok (chans, table).
Proof.
  unfold prechecks. intros H.
  match type of H with context [as_str_list ?x] =>
    destruct (as_str_list x) as [l|] eqn:Eas end; [|discriminate].
  assert (El : l = chans).
  { destruct (missing_items l (t_columns tbl)); [|discriminate].
    destruct (first_missing_key [EPOCH_ID; TIME] (t_index tbl)); [discriminate|].
    destruct (reset_index tbl) as [t1|e]; simpl in H; [|discriminate].
    destruct (set_index_epoch EPOCH_ID t1) as [t2|e]; simpl in H; [|discriminate].
    inversion H; reflexivity. }
  subst l. simpl as_str_list. rewrite all_str_map. exact H.
Qed.

Lemma prechecks_index {V} EPOCH_ID TIME CHANNELS (tbl : Table V) ch chans table :
  prechecks EPOCH_ID TIME CHANNELS tbl ch = Ok (chans, table) -> t_index table = [EPOCH_ID].
Proof.
  unfold prechecks. intros H.
  match type of H with context [as_str_list ?x] =>
    destruct (as_str_list x) as [l|] eqn:Eas end; [|discriminate].
  destruct (missing_items l (t_columns tbl)); [|discriminate].
  destruct (first_missing_key [EPOCH_ID; TIME] (t_index tbl)); [discriminate|].
  destruct (reset_index tbl) as [t1|e]; simpl in H; [|discriminate].
  unfold set_index_epoch in H.
  destruct (mem EPOCH_ID (t_columns t1)); simpl in H; inversion H; reflexivity.
Qed.

(** What a container holds after a successful construction. *)
Lemma construct_ok_facts {V} EPOCH_ID TIME CHANNELS (tbl : Table V) ch ep :
  construct EPOCH_ID TIME CHANNELS tbl ch = Ok ep ->
  exists table,
    prechecks EPOCH_ID TIME CHANNELS tbl ch = Ok (e_channels ep, table) /\
    e_table ep = table /\
    t_index (e_table ep) = [EPOCH_ID] /\
    t_columns (e_table ep) = remove string_dec EPOCH_ID (t_index tbl ++ t_columns tbl)%list /\
    t_rows (e_table ep) = t_rows tbl /\
    In EPOCH_ID (t_index tbl) /\ In TIME (t_index tbl) /\
    (forall n, In n (t_index tbl) -> ~ In n (t_columns tbl)) /\
    (forall c, In c (e_channels ep) -> In c (t_columns tbl)) /\
    NoDup (e_epoch_index ep) /\
    (forall r, In r (t_rows tbl) -> ids_at (t_rows tbl) (r_time r) = e_epoch_index ep).
Proof.
  unfold construct. intros H.
  destruct (prechecks EPOCH_ID TIME CHANNELS tbl ch) as [[chans table]|e] eqn:Hp;
    simpl in H; [|discriminate].
  assert (Hsts : same_trial_sequence (t_rows table))
    by (apply (snapshot_stage_ok V chans table); eauto).
  apply snapshot_stage_result in H. subst ep. simpl.
  destruct (prechecks_inv _ _ _ _ _ _ _ Hp) as (Hcols & HE & Hdisj & Htc).
  pose proof (prechecks_time _ _ _ _ _ _ _ Hp) as HT.
  pose proof (prechecks_index _ _ _ _ _ _ _ Hp) as HI0.
  pose proof (prechecks_rows V EPOCH_ID TIME CHANNELS _ _ _ _ Hp) as Hrows.
  exists table. split; [reflexivity|]. split; [reflexivity|].
  split; [exact HI0|]. split; [exact Htc|]. split; [exact Hrows|].
  split; [exact HE|]. split; [exact HT|]. split; [exact Hdisj|]. split; [exact Hcols|].
  rewrite <- Hrows.
  destruct Hsts as (Hne & Hsame & Hnd).
  set (rows := t_rows table) in *.
  destruct (times_cons V rows Hne) as (t0 & ts & Ht).
  assert (HI : first_group_ids rows = ids (time_group rows t0))
    by (unfold first_group_ids, groupby_time; rewrite Ht; reflexivity).
  assert (Ht0 : In t0 (times rows)) by (rewrite Ht; left; reflexivity).
  apply In_times in Ht0. destruct Ht0 as (r0 & Hr0 & Hr0t).
  rewrite HI. split.
  - rewrite <- Hr0t. exact (Hnd r0 Hr0).
  - intros r Hr. rewrite (Hsame r r0 Hr Hr0), Hr0t. reflexivity.
Qed.

(** X: what a successful construction stores: the table's rows unchanged,
    indexed by [EPOCH_ID] alone, its other index levels moved in front of
    the columns; channels that are columns of the input; and a trial-id
    index without repeats that is the sequence of trial ids at every time
    key. *)
Theorem construct_container_contents (V : Type) (EPOCH_ID TIME : string)
  (CHANNELS : list string) (tbl : Table V) (ch : PyVal) (ep : Epochs V) :
  construct EPOCH_ID TIME CHANNELS tbl ch = Ok ep ->
  t_index (e_table ep) = [EPOCH_ID] /\
  t_columns (e_table ep) = remove string_dec EPOCH_ID (t_index tbl ++ t_columns tbl)%list /\
  t_rows (e_table ep) = t_rows tbl /\
  (forall c, In c (e_channels ep) -> In c (t_columns tbl)) /\
  NoDup (e_epoch_index ep) /\
  (forall r, In r (t_rows tbl) -> ids_at (t_rows tbl) (r_time r) = e_epoch_index ep).
Proof.
  intros H.
  destruct (construct_ok_facts _ _ _ _ _ _ H)
    as (table & _ & _ & HI & HC & HR & _ & _ & _ & Hch & Hnd & Hids).
  repeat split; assumption.
Qed.

Lemma mem_false s l : ~ In s l -> mem s l = false.
Proof. intros H. destruct (mem s l) eqn:E; [|reflexivity]. apply mem_In in E. contradiction. Qed.

Lemma stored_columns {V} EPOCH_ID TIME CHANNELS (tbl : Table V) ch ep :
  t_index tbl = [EPOCH_ID; TIME] -> EPOCH_ID <> TIME ->
  construct EPOCH_ID TIME CHANNELS tbl ch = Ok ep ->
  t_columns (e_table ep) = TIME :: t_columns tbl /\
  ~ In EPOCH_ID (t_columns tbl) /\ ~ In TIME (t_columns tbl).
Proof.
  intros Hidx Hne H.
  destruct (construct_ok_facts _ _ _ _ _ _ H)
    as (table & _ & _ & _ & HC & _ & _ & _ & Hdisj & _).
  rewrite Hidx in Hdisj.
  assert (HnE : ~ In EPOCH_ID (t_columns tbl)) by (apply Hdisj; left; reflexivity).
  assert (HnT : ~ In TIME (t_columns tbl)) by (apply Hdisj; right; left; reflexivity).
  rewrite HC, Hidx. simpl.
  destruct (string_dec EPOCH_ID EPOCH_ID) as [_|C]; [|contradiction].
  destruct (string_dec EPOCH_ID TIME) as [C|_]; [contradiction|].
  rewrite notin_remove by exact HnE. auto.
Qed.

(** X: for a table indexed by exactly [[EPOCH_ID; TIME]] (two distinct
    keys), the container's stored table goes back to the input table by
    [reset_index()] followed by [set_index([EPOCH_ID, TIME])], and
    constructing again from that table with the container's channels gives
    the same container. *)
Theorem construct_stored_table_round_trip (V : Type) (EPOCH_ID TIME : string)
  (CHANNELS : list string) (tbl : Table V) (ch : PyVal) (ep : Epochs V) :
  t_index tbl = [EPOCH_ID; TIME] -> EPOCH_ID <> TIME ->
  construct EPOCH_ID TIME CHANNELS tbl ch = Ok ep ->
  (t1 <- reset_index (e_table ep) ;; set_index_keys EPOCH_ID TIME t1) = Ok tbl /\
  construct EPOCH_ID TIME CHANNELS tbl (PyList (map PyStr (e_channels ep))) = Ok ep.
Proof.
  intros Hidx Hne H.
  destruct (stored_columns _ _ _ _ _ _ Hidx Hne H) as (HC & HnE & HnT).
  destruct (construct_ok_facts _ _ _ _ _ _ H)
    as (table & Hp & Etab & HI & _ & HR & _).
  split.
  - unfold reset_index. rewrite HI, HC. cbn [filter].
    rewrite (mem_false EPOCH_ID (TIME :: t_columns tbl)) by (intros [E|E]; auto).
    cbn [bind app]. unfold set_index_keys. cbn [t_columns t_index t_rows filter].
    rewrite (proj2 (mem_In EPOCH_ID (EPOCH_ID :: TIME :: t_columns tbl)) (or_introl eq_refl)).
    rewrite (proj2 (mem_In TIME (EPOCH_ID :: TIME :: t_columns tbl)) (or_intror (or_introl eq_refl))). cbn [negb].
    cbn [remove]. destruct (string_dec EPOCH_ID EPOCH_ID) as [_|C]; [|contradiction].
    destruct (string_dec EPOCH_ID TIME) as [C|_]; [contradiction|]. rewrite (notin_remove string_dec (t_columns tbl) EPOCH_ID HnE).
    cbn [remove]. destruct (string_dec TIME TIME) as [_|C]; [|contradiction].
    rewrite notin_remove by exact HnT.
    rewrite HR, <- Hidx. destruct tbl; reflexivity.
  - unfold construct. rewrite (prechecks_channels _ _ _ _ _ _ _ Hp). simpl.
    unfold construct in H. rewrite Hp in H. exact H.
Qed.

(** X: a container's stored table cannot be passed back to the
    constructor: with its own channels it is refused with the [FitGridError]
    naming [TIME], since the stored table is indexed by [EPOCH_ID] alone. *)
Theorem construct_rejects_stored_table (V : Type) (EPOCH_ID TIME : string)
  (CHANNELS : list string) (tbl : Table V) (ch : PyVal) (ep : Epochs V) :
  EPOCH_ID <> TIME ->
  construct EPOCH_ID TIME CHANNELS tbl ch = Ok ep ->
  construct EPOCH_ID TIME CHANNELS (e_table ep) (PyList (map PyStr (e_channels ep)))
  = Raise (FitGridError (TIME ++ " must be a column in the epochs table index.")).
Proof.
  intros Hne H.
  destruct (construct_ok_facts _ _ _ _ _ _ H)
    as (table & _ & _ & HI & HC & _ & HE & _ & Hdisj & Hch & _).
  unfold construct, prechecks. simpl as_str_list. rewrite all_str_map.
  rewrite (proj2 (missing_items_nil _ _)).
  2:{ intros c Hc. rewrite HC. apply in_in_remove.
      - intros ->. exact (Hdisj _ HE (Hch _ Hc)).
      - apply in_or_app. right. exact (Hch c Hc). }
  rewrite HI. simpl. rewrite String.eqb_refl. simpl.
  replace (String.eqb TIME EPOCH_ID) with false by (symmetry; apply String.eqb_neq; auto).
  reflexivity.
Qed.

(** X: [epochs_from_hdf] never returns a container.  A [None] among
    [time], [epoch_id], [channels] raises the [FitGridError] asking for them
    before the file is read; when both keys are index levels, or both are
    columns, the call of [Epochs] with keyword arguments it does not take
    raises [TypeError]. *)
Theorem epochs_from_hdf_never_returns (V : Type) (df : Result (Table V))
  (time epoch_id : option string) (channels : PyVal) :
  (forall ep, epochs_from_hdf df time epoch_id channels <> Ok ep) /\
  (time = None \/ epoch_id = None \/ channels = PyNone ->
   epochs_from_hdf df time epoch_id channels
   = Raise (FitGridError "Please provide `time`, `epoch_id`, and `channels` parameters. You can use the defaults, for example: time=fitgrid.defaults.TIME")) /\
  (forall t e d, time = Some t -> epoch_id = Some e -> channels <> PyNone -> df = Ok d ->
   (In e (t_index d) /\ In t (t_index d)) \/ (In e (t_columns d) /\ In t (t_columns d)) ->
   epochs_from_hdf df time epoch_id channels
   = Raise (mkExc "TypeError" [AStr "__init__() got an unexpected keyword argument 'time'"])).
Proof.
  unfold epochs_from_hdf, epochs_kw_call. split; [|split].
  - intros ep. destruct time as [t|], epoch_id as [e|]; try discriminate.
    destruct (is_py_none channels); [discriminate|].
    destruct df as [d|x]; simpl; [|discriminate].
    destruct (mem e (t_index d) && mem t (t_index d)); [discriminate|].
    destruct (mem e (t_columns d) && mem t (t_columns d)); [|discriminate].
    destruct (set_index_keys e t d); discriminate.
  - intros [->|[->| ->]]; [reflexivity|destruct time; reflexivity|].
    destruct time, epoch_id; reflexivity.
  - intros t e d -> -> Hc -> Hin.
    replace (is_py_none channels) with false by (destruct channels; simpl; congruence).
    simpl. destruct Hin as [[H1 H2]|[H1 H2]].
    + rewrite (proj2 (mem_In _ _) H1), (proj2 (mem_In _ _) H2). reflexivity.
    + destruct (mem e (t_index d) && mem t (t_index d)); [reflexivity|].
      rewrite (proj2 (mem_In _ _) H1), (proj2 (mem_In _ _) H2). simpl.
      unfold set_index_keys. cbn [filter].
      rewrite (proj2 (mem_In _ _) H1), (proj2 (mem_In _ _) H2). reflexivity.
Qed.













Lemma ex_keys_differ : ex_epoch <> ex_time.
Proof. intros E. vm_compute in E. discriminate E. Qed.

Lemma construct_container_contents_witness :
  construct ex_epoch ex_time [] ex_aligned (PyList [PyStr "A"; PyStr "B"]) = Ok ex_ep /\
  t_index (e_table ex_ep) = [ex_epoch] /\ NoDup (e_epoch_index ex_ep) /\
  (forall r, In r (t_rows ex_aligned) ->
     ids_at (t_rows ex_aligned) (r_time r) = e_epoch_index ex_ep).
Proof.
  destruct (construct_container_contents nat ex_epoch ex_time [] ex_aligned
              (PyList [PyStr "A"; PyStr "B"]) ex_ep ex_ep_constructed)
    as (HI & _ & _ & _ & Hnd & Hids).
  split; [exact ex_ep_constructed|]. split; [exact HI|]. split; [exact Hnd|exact Hids].
Defined.

Lemma construct_stored_table_round_trip_witness :
  t_index ex_aligned = [ex_epoch; ex_time] /\ ex_epoch <> ex_time /\
  construct ex_epoch ex_time [] ex_aligned (PyList [PyStr "A"; PyStr "B"]) = Ok ex_ep /\
  (t1 <- reset_index (e_table ex_ep) ;; set_index_keys ex_epoch ex_time t1) = Ok ex_aligned /\
  construct ex_epoch ex_time [] ex_aligned (PyList (map PyStr (e_channels ex_ep))) = Ok ex_ep.
Proof.
  split; [reflexivity|]. split; [exact ex_keys_differ|]. split; [exact ex_ep_constructed|].
  exact (construct_stored_table_round_trip nat ex_epoch ex_time [] ex_aligned
           (PyList [PyStr "A"; PyStr "B"]) ex_ep eq_refl ex_keys_differ ex_ep_constructed).
Defined.

Lemma construct_rejects_stored_table_witness :
  construct ex_epoch ex_time [] ex_aligned (PyList [PyStr "A"; PyStr "B"]) = Ok ex_ep /\
  construct ex_epoch ex_time [] (e_table ex_ep) (PyList (map PyStr (e_channels ex_ep)))
  = Raise (FitGridError (ex_time ++ " must be a column in the epochs table index.")).
Proof.
  split; [exact ex_ep_constructed|].
  exact (construct_rejects_stored_table nat ex_epoch ex_time [] ex_aligned
           (PyList [PyStr "A"; PyStr "B"]) ex_ep ex_keys_differ ex_ep_constructed).
Defined.

Lemma epochs_from_hdf_never_returns_witness :
  epochs_from_hdf (Ok ex_cols) None (Some ex_epoch) (PyStr "default")
  = Raise (FitGridError "Please provide `time`, `epoch_id`, and `channels` parameters. You can use the defaults, for example: time=fitgrid.defaults.TIME") /\
  epochs_from_hdf (Ok ex_cols) (Some ex_time) (Some ex_epoch) (PyStr "default")
  = Raise (mkExc "TypeError" [AStr "__init__() got an unexpected keyword argument 'time'"]).
Proof.
  split.
  - exact (proj1 (proj2 (epochs_from_hdf_never_returns nat (Ok ex_cols) None (Some ex_epoch)
                           (PyStr "default"))) (or_introl eq_refl)).
  - refine (proj2 (proj2 (epochs_from_hdf_never_returns nat (Ok ex_cols) (Some ex_time)
                            (Some ex_epoch) (PyStr "default")))
              ex_time ex_epoch ex_cols eq_refl eq_refl _ eq_refl _).
    + discriminate.
    + right. split; vm_compute; auto.
Defined.


(** X: the other two readers of [fitgrid/io.py] never return a container
    either.  [epochs_from_dataframe] always raises [TypeError].
    [epochs_from_feather] checks the library versions, reads the file, and
    then looks for the keys among the columns only: when both are columns
    it raises [TypeError] (from the call of [Epochs]), otherwise the
    [FitGridError] "Dataset has to contain ...", even when the keys are
    index levels. *)
Theorem epochs_readers_never_return (V : Type) (dataframe : Table V) (check : Result unit)
  (df : Result (Table V)) (time epoch_id : string) (channels : PyVal) :
  (forall ep, epochs_from_dataframe dataframe time epoch_id channels <> Ok ep) /\
  (forall ep, epochs_from_feather check df time epoch_id channels <> Ok ep) /\
  (forall d, check = Ok tt -> df = Ok d ->
   In epoch_id (t_columns d) -> In time (t_columns d) ->
   epochs_from_feather check df time epoch_id channels
   = Raise (mkExc "TypeError" [AStr "__init__() got an unexpected keyword argument 'time'"])) /\
  (forall d, check = Ok tt -> df = Ok d ->
   ~ (In epoch_id (t_columns d) /\ In time (t_columns d)) ->
   epochs_from_feather check df time epoch_id channels
   = Raise (FitGridError ("Dataset has to contain " ++ epoch_id ++ " and " ++ time
                          ++ " as columns or indices."))).
Proof.
  unfold epochs_from_dataframe, epochs_from_feather, epochs_kw_call.
  split; [intros ep; discriminate|]. split; [|split].
  - intros ep. destruct check as [[]|x]; simpl; [|discriminate].
    destruct df as [d|x]; simpl; [|discriminate].
    destruct (mem epoch_id (t_columns d) && mem time (t_columns d)); [|discriminate].
    destruct (set_index_keys epoch_id time d); discriminate.
  - intros d -> -> H1 H2. simpl.
    rewrite (proj2 (mem_In _ _) H1), (proj2 (mem_In _ _) H2). simpl.
    unfold set_index_keys. cbn [filter].
    rewrite (proj2 (mem_In _ _) H1), (proj2 (mem_In _ _) H2). reflexivity.
  - intros d -> -> Hn. simpl.
    destruct (mem epoch_id (t_columns d)) eqn:E1, (mem time (t_columns d)) eqn:E2;
      simpl; try reflexivity.
    exfalso. apply Hn. split; apply mem_In; assumption.
Qed.

Lemma epochs_readers_never_return_witness :
  epochs_from_feather (Ok tt) (Ok ex_cols) ex_time ex_epoch (PyStr "default")
  = Raise (mkExc "TypeError" [AStr "__init__() got an unexpected keyword argument 'time'"]) /\
  epochs_from_feather (Ok tt) (Ok ex_aligned) ex_time ex_epoch (PyStr "default")
  = Raise (FitGridError ("Dataset has to contain " ++ ex_epoch ++ " and " ++ ex_time
                         ++ " as columns or indices.")).
Proof.
  split.
  - refine (proj1 (proj2 (proj2 (epochs_readers_never_return nat ex_cols (Ok tt) (Ok ex_cols)
                                   ex_time ex_epoch (PyStr "default"))))
              ex_cols eq_refl eq_refl _ _); vm_compute; auto.
  - refine (proj2 (proj2 (proj2 (epochs_readers_never_return nat ex_cols (Ok tt) (Ok ex_aligned)
                                   ex_time ex_epoch (PyStr "default"))))
              ex_aligned eq_refl eq_refl _).
    intros [H _]. vm_compute in H. intuition discriminate.
Defined.
